(** * The HTTP route cache of patron: a shallow embedding

    The cache package wraps an [http.Handler] of a route: a request is
    answered from a TTL store when a fresh entry exists, and otherwise the
    handler runs against an in-memory [responseReadWriter] whose content
    becomes the response and, possibly, the next stored entry.

    Embedded from the source: [Age], [age], [Age.toAgeInSeconds],
    [RouteCache], [NewRouteCache], [responseReadWriter] with its five
    methods, [httpExecutor] and [Handler].  Integers of Go ([int], [int64],
    [time.Duration]) are [Z]; none of the operations below can overflow
    (comparisons, assignments and divisions by positive constants).  Go
    pointers to mutated structs become explicit state passing; a Go panic is
    the result [Panicked]. *)

From Stdlib Require Import ZArith Lia.
From Stdlib Require Import Strings.Byte.
From stdpp Require Import base option list gmap strings pretty.

Local Open Scope Z_scope.

(** ** Go values shared by the package *)

(** Go's [error] values as this package builds and meets them. *)
Inductive error : Type :=
| io_EOF                                  (* io.EOF *)
| errors_New (text : string)              (* errors.New(text) *)
| fmt_Errorf (format : string) (args : list Z) (wrapped : error).
                                          (* fmt.Errorf(format, args..., err) with %w *)

(** [errors.Unwrap]. *)
Definition errors_Unwrap (e : error) : option error :=
  match e with
  | fmt_Errorf _ _ w => Some w
  | _ => None
  end.

(** The result of a Go call that may panic. *)
Inductive result (A : Type) : Type :=
| Returned (a : A)
| Panicked.
Arguments Returned {A} a.
Arguments Panicked {A}.

(** [[]byte(s)]: the bytes of a Go string. *)
Definition bytes (s : string) : list byte := String.list_byte_of_string s.

(** [http.Header] is [map[string][]string]. *)
Abbreviation http_Header := (gmap string (list string)).

(** [time.Duration] counts nanoseconds in an [int64]. *)
Definition time_Millisecond : Z := 1000000.
Definition time_Second : Z := 1000000000.

(** [Duration.Milliseconds]: [int64(d) / 1e6], Go's division truncates. *)
Definition Milliseconds (d : Z) : Z := Z.quot d time_Millisecond.

(** ** bytes.Buffer

    The unread part of the buffer.  [Write] appends and never fails;
    [Read] copies [min (len p) (len unread)] bytes to the front of [p] and
    reports [io.EOF] only when nothing is left and [p] is not empty. *)
Definition Buffer := list byte.

Definition Buffer_Write (b : Buffer) (p : list byte) : Buffer * Z * option error :=
  (b ++ p, Z.of_nat (length p), None).

Definition Buffer_Read (b : Buffer) (p : list byte) : Buffer * list byte * Z * option error :=
  match b with
  | [] => (b, p, 0, match p with [] => None | _ => Some io_EOF end)
  | _ =>
      let n := Nat.min (length p) (length b) in
      (drop n b, take n b ++ drop n p, Z.of_nat n, None)
  end.

(** ** Age *)

(** [Age]: the route cache life-time boundaries, two [time.Duration]. *)
Record Age : Type := { Min : Z; Max : Z }.

(** [age]: the same boundaries in whole seconds. *)
Record age : Type := { min : Z; max : Z }.

(** [Age.toAgeInSeconds]. *)
Definition toAgeInSeconds (a : Age) : age :=
  {| min := Z.quot (Min a) time_Second;
     max := Z.quot (Max a) time_Second |}.

(** Modelled from the spec: [hasNoAgeConfig] is called by [NewRouteCache]
    and defined in a file that is not part of the sources.  The spec has
    the warning emitted when both bounds are zero. *)
Definition hasNoAgeConfig (minAge maxAge : Z) : bool :=
  (minAge =? 0) && (maxAge =? 0).

(** ** Responses and the TTL store *)

(** [handlerResponse]: what is served, as [httpExecutor] fills it. *)
Record handlerResponse : Type := { Bytes : list byte; Header : http_Header }.

(** [response]: a handler response with its generation time and ETag, or
    the error of the execution. *)
Record response : Type :=
  { Response : handlerResponse; LastValid : Z; Etag : string; Err : option error }.

(** The zero value of [handlerResponse]. *)
Definition handlerResponse_zero : handlerResponse := {| Bytes := []; Header := ∅ |}.

(** Modelled from the spec: [cache.TTLCache], the TTL store, is an
    interface of another package that is not part of the sources.  The spec
    gives it [get(key) -> (entry, found, error)] and
    [set(key, entry, ttl) -> error]; an entry is kept with the TTL it was
    set with, and [outage] is the error both calls report while the store
    is unavailable. *)
Record TTLCache : Type :=
  { entries : gmap string (response * Z); outage : option error }.

(** Modelled from the spec: [get(key) -> (entry, found, error)] of the
    TTL store, which is not part of the sources. *)
Definition TTLCache_get (c : TTLCache) (key : string) : option response * bool * option error :=
  match outage c with
  | Some e => (None, false, Some e)
  | None =>
      match entries c !! key with
      | Some (v, _) => (Some v, true, None)
      | None => (None, false, None)
      end
  end.

(** Modelled from the spec: [set(key, entry, ttl) -> error] of the TTL
    store, which is not part of the sources. *)
Definition TTLCache_set (c : TTLCache) (key : string) (v : response) (ttl : Z)
  : TTLCache * option error :=
  match outage c with
  | Some e => (c, Some e)
  | None => ({| entries := <[key := (v, ttl)]> (entries c); outage := None |}, None)
  end.

(** ** RouteCache *)

(** [RouteCache]: the TTL cache (a Go interface value, [None] is [nil]) and
    the age boundaries in seconds (the field [age] of the source). *)
Record RouteCache : Type := { cache : option TTLCache; rc_age : age }.

(** [log.Level], and a line written by package [log]: its level and its
    format string. *)
Inductive Level : Type :=
| DebugLevel | InfoLevel | WarnLevel | ErrorLevel | FatalLevel | PanicLevel | NoLevel.

(** [log.Warnf]: the logger writes one line at warn level. *)
Definition log_Warnf (msg : string) : list (Level * string) := [(WarnLevel, msg)].

(** [NewRouteCache].  The three results are the returned pointer ([None]
    would be [nil]), the returned errors and the lines logged. *)
Definition NewRouteCache (ttlCache : option TTLCache) (a : Age)
  : option RouteCache * list error * list (Level * string) :=
  let errs : list error := [] in
  let errs :=
    match ttlCache with
    | None => errs ++ [errors_New "route cache is nil"]
    | Some _ => errs
    end in
  let errs :=
    if Min a >? Max a
    then errs ++ [errors_New "max age must always be greater than min age"]
    else errs in
  let logged :=
    if hasNoAgeConfig (Milliseconds (Min a)) (Milliseconds (Max a))
    then log_Warnf "route cache disabled because of empty Age property %v"
    else [] in
  (Some {| cache := ttlCache; rc_age := toAgeInSeconds a |}, errs, logged).

(** ** responseReadWriter *)

(** [responseReadWriter]: a response writer able to read the payload. *)
Record responseReadWriter : Type :=
  { buffer : Buffer; len : Z; header : http_Header; statusCode : Z }.

(** [newResponseReadWriter]: [len] and [statusCode] keep Go's zero value. *)
Definition newResponseReadWriter : responseReadWriter :=
  {| buffer := []; len := 0; header := ∅; statusCode := 0 |}.

(** [responseReadWriter.Read]: the writer after the call, the slice [p]
    after the call, [n] and [err]. *)
Definition rw_Read (rw : responseReadWriter) (p : list byte)
  : responseReadWriter * list byte * Z * option error :=
  let '(b, p', n, err) := Buffer_Read (buffer rw) p in
  ({| buffer := b; len := len rw; header := header rw; statusCode := statusCode rw |},
   p', n, err).

(** [responseReadWriter.ReadAll].  [len] only ever holds the length of a
    slice, so [make([]byte, rw.len)] is a slice of [len] zero bytes. *)
Definition rw_ReadAll (rw : responseReadWriter)
  : responseReadWriter * list byte * option error :=
  if len rw =? 0 then (rw, [], None)
  else
    let b := replicate (Z.to_nat (len rw)) x00 in
    let '(rw', b', _, err) := rw_Read rw b in
    (rw', b', err).

(** [responseReadWriter.Header]. *)
Definition rw_Header (rw : responseReadWriter) : http_Header := header rw.

(** [responseReadWriter.Write]. *)
Definition rw_Write (rw : responseReadWriter) (p : list byte)
  : responseReadWriter * Z * option error :=
  let len' := Z.of_nat (length p) in
  let '(b, n, err) := Buffer_Write (buffer rw) p in
  ({| buffer := b; len := len'; header := header rw; statusCode := statusCode rw |},
   n, err).

(** [responseReadWriter.WriteHeader]. *)
Definition rw_WriteHeader (rw : responseReadWriter) (code : Z) : responseReadWriter :=
  {| buffer := buffer rw; len := len rw; header := header rw; statusCode := code |}.

(** ** The transport layer *)

(** The inbound [http.Request] as the transport layer hands it over: the
    method, the path and the client's cache-control directives, in
    seconds, where the request carries them. *)
Record Request : Type :=
  { Method : string; Path : string;
    CacheControl_maxAge : option Z; CacheControl_minFresh : option Z }.

(** The [http.ResponseWriter] of the transport layer, as net/http
    implements it: [Write] first writes the header with status 200 when no
    status was written; [w_fault] is the error it then reports, if any
    (no body allowed, content length exceeded, or the error of the
    connection), with no byte of the body taken. *)
Record ResponseWriter : Type :=
  { w_header : http_Header; w_status : option Z; w_body : list byte;
    w_fault : option error }.

(** [ResponseWriter.Write] of the transport's writer. *)
Definition w_Write (w : ResponseWriter) (p : list byte) : ResponseWriter * Z * option error :=
  match w_fault w with
  | Some e =>
      ({| w_header := w_header w; w_status := Some (default 200 (w_status w));
          w_body := w_body w; w_fault := Some e |},
       0, Some e)
  | None =>
      ({| w_header := w_header w; w_status := Some (default 200 (w_status w));
          w_body := w_body w ++ p; w_fault := None |},
       Z.of_nat (length p), None)
  end.

(** What an [http.Handler] does with the writer it is given.  The writer
    is always a [*responseReadWriter], so the calls are its five methods;
    [Header] returns the map itself, which the handler then changes
    through [http.Header]'s methods or as a plain map. *)
Inductive headerOp : Type :=
| HSet (k v : string)                (* h.Set(k, v) *)
| HAdd (k v : string)                (* h.Add(k, v) *)
| HDel (k : string)                  (* h.Del(k) *)
| HAssign (k : string) (vs : list string)   (* h[k] = vs *)
| HDelete (k : string).              (* delete(h, k) *)

(** A call on the capture writer: [Write(p)], [WriteHeader(code)], a
    change of the map [Header()] returned, and, the writer being a reader
    too, [Read(p)] and [ReadAll()]. *)
Inductive call : Type :=
| CallWrite (p : list byte)
| CallWriteHeader (code : Z)
| CallHeader (op : headerOp)
| CallRead (p : list byte)
| CallReadAll.

(** An [http.Handler]: the calls it makes, in order, for a request. *)
Definition http_Handler : Type := Request -> list call.

(** Modelled from the spec: [handlerRequest], the type of the value
    [toCacheHandlerRequest] builds, is not part of the sources; the spec has
    the cache key and the two parsed directives read from the request. *)
Record handlerRequest : Type :=
  { key : string; maxAge : option Z; minFresh : option Z }.

(** [executor]: [func(now int64, key string) *response]. *)
Definition executor : Type := Z -> string -> response.

(** Modelled from the spec: the outcomes of the decision engine, which is
    not part of the sources.  A hit carries the entry it serves. *)
Inductive outcome : Type :=
| HIT (e : response)
| MISS
| BYPASS.

(** Modelled from the spec: [effectiveMaxAge = min(routeMax, clientMaxAge
    or routeMax)], floored at [routeMin]. *)
Definition effectiveMaxAge (a : age) (clientMaxAge : option Z) : Z :=
  Z.max (min a) (Z.min (max a) (default (max a) clientMaxAge)).

(** Modelled from the spec: [effectiveMinFresh], computed "similarly from
    clientMinFresh and routeMin": the client's value, or the route's
    minimum without one, floored at the route's minimum. *)
Definition effectiveMinFresh (a : age) (clientMinFresh : option Z) : Z :=
  Z.max (min a) (default (min a) clientMinFresh).

(** Modelled from the spec: the decision engine (section 4.4).  Zero
    bounds bypass the cache; no entry is a miss; an entry is a hit when
    [age <= effectiveMaxAge] and [effectiveMaxAge - age >=
    effectiveMinFresh]. *)
Definition decide_outcome (a : age) (req : handlerRequest) (entry : option response)
    (now : Z) : outcome :=
  if (min a =? 0) && (max a =? 0) then BYPASS
  else
    match entry with
    | None => MISS
    | Some e =>
        let age := now - LastValid e in
        let ema := effectiveMaxAge a (maxAge req) in
        if (age <=? ema) && (effectiveMinFresh a (minFresh req) <=? ema - age)
        then HIT e else MISS
    end.

(** Modelled from the spec: the lookup of step 2 of the orchestrator; a
    lookup error counts as no entry. *)
Definition lookup_entry (c : TTLCache) (k : string) : option response :=
  match TTLCache_get c k with
  | (Some e, true, None) => Some e
  | _ => None
  end.

(** Modelled from the spec: [handler], the function [Handler] calls with
    the executor and the route cache, is not part of the sources.  It
    follows sections 4.4 and 4.5 of the spec: look the key up, decide, serve
    the entry on a hit, else run the executor, hand its error back, and on
    a miss store the response with the route's maximum age as TTL (a store
    write error does not fail the request).  The result is the response
    and error [handler] returns, the route cache with the store as the call
    left it, and how many times the executor ran; a [nil] store panics. *)
Definition handler (exec : executor) (rc : RouteCache) (now : Z) (req : handlerRequest)
  : result (option handlerResponse * option error * RouteCache * nat) :=
  match cache rc with
  | None => Panicked
  | Some c =>
      match decide_outcome (rc_age rc) req (lookup_entry c (key req)) now with
      | HIT e => Returned (Some (Response e), None, rc, 0%nat)
      | MISS =>
          let rsp := exec now (key req) in
          match Err rsp with
          | Some err => Returned (None, Some err, rc, 1%nat)
          | None =>
              let '(c', _) := TTLCache_set c (key req) rsp (max (rc_age rc) * time_Second) in
              Returned (Some (Response rsp), None,
                        {| cache := Some c'; rc_age := rc_age rc |}, 1%nat)
          end
      | BYPASS =>
          let rsp := exec now (key req) in
          match Err rsp with
          | Some err => Returned (None, Some err, rc, 1%nat)
          | None => Returned (Some (Response rsp), None, rc, 1%nat)
          end
      end
  end.

(** ** What the package takes from the Go runtime and from absent files

    [CanonicalMIMEHeaderKey] is the key canonicalisation of net/textproto
    that [http.Header]'s methods apply; [rangeHeader] is the order in which
    a [range] loop visits a header map, which Go leaves open: any
    enumeration of the map; [generateETag] and the cache key of a request
    are functions of this package whose files are not part of the
    sources. *)
Class GoRuntime : Type :=
  { CanonicalMIMEHeaderKey : string -> string;
    rangeHeader : http_Header -> list (string * list string);
    rangeHeader_perm : ∀ h : http_Header, rangeHeader h ≡ₚ map_to_list h;
    generateETag : list byte -> Z -> string;
    cacheKey : Request -> string }.

Section Orchestrator.
Context {rt : GoRuntime}.

(** [http.Header.Set], [Add] and [Del], and the two plain map statements. *)
Definition Header_Set (h : http_Header) (k v : string) : http_Header :=
  <[CanonicalMIMEHeaderKey k := [v]]> h.

Definition Header_Add (h : http_Header) (k v : string) : http_Header :=
  <[CanonicalMIMEHeaderKey k := default [] (h !! CanonicalMIMEHeaderKey k) ++ [v]]> h.

Definition Header_Del (h : http_Header) (k : string) : http_Header :=
  delete (CanonicalMIMEHeaderKey k) h.

Definition apply_headerOp (op : headerOp) (h : http_Header) : http_Header :=
  match op with
  | HSet k v => Header_Set h k v
  | HAdd k v => Header_Add h k v
  | HDel k => Header_Del h k
  | HAssign k vs => <[k := vs]> h
  | HDelete k => delete k h
  end.

(** One call of the handler on the capture writer. *)
Definition do_call (rw : responseReadWriter) (c : call) : responseReadWriter :=
  match c with
  | CallWrite p => (rw_Write rw p).1.1
  | CallWriteHeader code => rw_WriteHeader rw code
  | CallHeader op =>
      {| buffer := buffer rw; len := len rw;
         header := apply_headerOp op (rw_Header rw); statusCode := statusCode rw |}
  | CallRead p => (rw_Read rw p).1.1.1
  | CallReadAll => (rw_ReadAll rw).1.1
  end.

(** [hnd(responseReadWriter, request)]: the handler runs. *)
Definition ServeHTTP (hnd : http_Handler) (rw : responseReadWriter) (request : Request)
  : responseReadWriter :=
  foldl do_call rw (hnd request).

(** Modelled from the spec: [toCacheHandlerRequest] is not part of the
    sources; it derives the cache key and reads the client's directives. *)
Definition toCacheHandlerRequest (r : Request) : handlerRequest :=
  {| key := cacheKey r; maxAge := CacheControl_maxAge r;
     minFresh := CacheControl_minFresh r |}.

(** [httpExecutor].  [nanos] is what [time.Now().Nanosecond()] returns
    when the executor runs. *)
Definition httpExecutor (_w : ResponseWriter) (request : Request) (hnd : http_Handler)
    (nanos : Z) : executor :=
  fun now key =>
    let responseReadWriter := ServeHTTP hnd newResponseReadWriter request in
    let '(rw, payload, err) := rw_ReadAll responseReadWriter in
    match err with
    | None =>
        {| Response := {| Bytes := payload; Header := rw_Header rw |};
           LastValid := now;
           Etag := generateETag (bytes key) nanos;
           Err := None |}
    | Some err =>
        {| Response := handlerResponse_zero; LastValid := 0; Etag := ""; Err := Some err |}
    end.

(** The loop of [Handler] over the response headers: [h[0]] panics on a
    key with no value. *)
Fixpoint Handler_setHeaders (kvs : list (string * list string)) (h : http_Header)
  : result http_Header :=
  match kvs with
  | [] => Returned h
  | (k, []) :: _ => Panicked
  | (k, v :: _) :: rest => Handler_setHeaders rest (Header_Set h k v)
  end.

(** The second half of [Handler]: the response goes to the writer. *)
Definition Handler_write (w : ResponseWriter) (response : handlerResponse)
  : result (option error * ResponseWriter) :=
  match Handler_setHeaders (rangeHeader (Header response)) (w_header w) with
  | Panicked => Panicked
  | Returned h =>
      let w1 := {| w_header := h; w_status := w_status w; w_body := w_body w;
                   w_fault := w_fault w |} in
      let '(w2, i, err) := w_Write w1 (Bytes response) in
      match err with
      | Some err =>
          Returned
            (Some (fmt_Errorf "could not Write cache processor result into Response %d: %w"
                     [i] err), w2)
      | None => Returned (None, w2)
      end
  end.

(** [Handler].  [now] is the clock reading of [handler], [nanos] the one
    of the executor.  The result is the returned error, the writer and the
    route cache after the call, and how many times the wrapped handler
    ran. *)
Definition Handler (w : ResponseWriter) (r : Request) (rc : RouteCache)
    (httpHandler : http_Handler) (now nanos : Z)
  : result (option error * ResponseWriter * RouteCache * nat) :=
  let req := toCacheHandlerRequest r in
  match handler (httpExecutor w r httpHandler nanos) rc now req with
  | Panicked => Panicked
  | Returned (response, err, rc', runs) =>
      match err with
      | Some err =>
          Returned
            (Some (fmt_Errorf "could not handle request with the cache processor: %w" [] err),
             w, rc', runs)
      | None =>
          match response with
          | None => Panicked
          | Some response =>
              match Handler_write w response with
              | Panicked => Panicked
              | Returned (err, w') => Returned (err, w', rc', runs)
              end
          end
      end
  end.

End Orchestrator.

(** ** A concrete runtime and concrete inputs, to run the model on

    [sampleRuntime] leaves header keys as they are (the keys used below are
    in canonical form already), visits a header map in the order of
    [map_to_list], writes an ETag as the key, a dash and the nanoseconds,
    and keys a request by method and path. *)
Definition sampleRuntime : GoRuntime :=
  {| CanonicalMIMEHeaderKey := fun k => k;
     rangeHeader := map_to_list;
     rangeHeader_perm := fun h => reflexivity (map_to_list h);
     generateETag := fun k t => String.string_of_list_byte k +:+ "-" +:+ pretty t;
     cacheKey := fun r => Method r +:+ " " +:+ Path r |}.

(** A writer nothing was written to, on a working connection. *)
Definition sample_writer : ResponseWriter :=
  {| w_header := ∅; w_status := None; w_body := []; w_fault := None |}.

(** [GET /a] without cache-control directives. *)
Definition sample_request : Request :=
  {| Method := "GET"; Path := "/a";
     CacheControl_maxAge := None; CacheControl_minFresh := None |}.

(** An empty, available TTL store. *)
Definition sample_store : TTLCache := {| entries := ∅; outage := None |}.

(** A route cache over the empty store, with ages 0s to 60s. *)
Definition sample_routeCache : RouteCache :=
  {| cache := Some sample_store; rc_age := {| min := 0; max := 60 |} |}.

(** A handler that gives one header two values and answers 404 with a
    body. *)
Definition handler_404 : http_Handler :=
  fun _ => [CallHeader (HAdd "Accept" "text/html");
            CallHeader (HAdd "Accept" "text/plain");
            CallWriteHeader 404;
            CallWrite (bytes "v1")].

(** A handler that writes its body in two calls. *)
Definition handler_two_writes : http_Handler :=
  fun _ => [CallWrite (bytes "ab"); CallWrite (bytes "cde")].

(** A handler that reads back what it wrote (the writer it is given is an
    [io.Reader]), which leaves the buffer empty. *)
Definition handler_reads_back : http_Handler :=
  fun _ => [CallWrite (bytes "a"); CallRead (bytes "?")].

(** ** What the claims speak of *)

(** The full body a handler wrote: the slices of its [Write] calls, in
    order. *)
Definition written (cs : list call) : list byte :=
  concat (omap (fun c => match c with CallWrite p => Some p | _ => None end) cs).

(** The handler never sets a status code. *)
Definition never_WriteHeader (cs : list call) : bool :=
  forallb (fun c => match c with CallWriteHeader _ => false | _ => true end) cs.

(** The handler writes nothing: no byte of body and no header. *)
Definition writes_nothing (cs : list call) : bool :=
  forallb (fun c =>
             match c with
             | CallWrite [] => true
             | CallWrite _ => false
             | CallHeader _ => false
             | _ => true
             end) cs.

(** The state a handler that writes nothing leaves the writer in. *)
Definition nothing_captured (rw : responseReadWriter) : Prop :=
  buffer rw = [] /\ len rw = 0 /\ header rw = ∅.

(** What the loop of [Handler] makes of the writer's headers [h], given
    the response headers [H]: a key no response key canonicalises to keeps
    its values, and any other key holds one value, the first value of a
    response key that canonicalises to it. *)
Definition first_values_set {rt : GoRuntime} (H h h' : http_Header) : Prop :=
  forall k' : string,
    (h' !! k' = h !! k' /\
     forall k : string, is_Some (H !! k) -> CanonicalMIMEHeaderKey k <> k') \/
    (exists (k v : string) (vs : list string),
        H !! k = Some (v :: vs) /\ CanonicalMIMEHeaderKey k = k' /\ h' !! k' = Some [v]).

(** The message [Handler] wraps the error of [handler] in. *)
Definition msg_could_not_handle : string :=
  "could not handle request with the cache processor: %w".

(** An entry as a miss at time 100 stores it, with two values under one
    header key, and a route cache whose store holds it. *)
Definition sample_entry : response :=
  {| Response := {| Bytes := bytes "v1";
                    Header := {[ "Accept" := ["text/html"; "text/plain"] ]} |};
     LastValid := 100; Etag := "GET /a-5"; Err := None |}.

Definition sample_routeCache_filled : RouteCache :=
  {| cache := Some {| entries := {[ "GET /a" := (sample_entry, 60 * time_Second) ]};
                      outage := None |};
     rc_age := {| min := 0; max := 60 |} |}.

(** The two errors [NewRouteCache] reports. *)
Definition err_nil_cache : error := errors_New "route cache is nil".
Definition err_min_above_max : error :=
  errors_New "max age must always be greater than min age".

(** ** What the further properties speak of *)

(** The slices of the handler's [Write] calls, in order. *)
Definition writes (cs : list call) : list (list byte) :=
  omap (fun c => match c with CallWrite p => Some p | _ => None end) cs.

(** The changes the handler makes to the header map, in order. *)
Definition header_ops (cs : list call) : list headerOp :=
  omap (fun c => match c with CallHeader op => Some op | _ => None end) cs.

(** The handler uses its writer as an [http.ResponseWriter] only:
    [Header], [Write] and [WriteHeader], and neither [Read] nor
    [ReadAll]. *)
Definition interface_only (cs : list call) : bool :=
  forallb (fun c => match c with CallRead _ | CallReadAll => false | _ => true end) cs.

(** A handler that sets a header, answers 201 and then 404, and writes
    one body. *)
Definition handler_created : http_Handler :=
  fun _ => [CallHeader (HSet "Content-Type" "text/plain");
            CallWriteHeader 201;
            CallWrite (bytes "created");
            CallWriteHeader 404].

(** A response one of whose header keys has no value. *)
Definition sample_response_no_value : handlerResponse :=
  {| Bytes := bytes "v1"; Header := {[ "Accept" := [] ]} |}.

(** A writer on a connection that is closed. *)
Definition sample_writer_closed : ResponseWriter :=
  {| w_header := ∅; w_status := None; w_body := [];
     w_fault := Some (errors_New "broken pipe") |}.

(** * Package log

    [Level] is a string type and [levelOrder] a map over it; the package
    keeps one logger, replaced at most once by [Setup].  What a call
    leaves behind is the counter of its level ([LogCounter], a counter per
    label), the text handed to [fmt.Print] or [fmt.Printf], and whether the
    call returns, panics or ends the process. *)
Module log.

Definition Level : Type := string.

Definition DebugLevel : Level := "debug".
Definition InfoLevel : Level := "info".
Definition WarnLevel : Level := "warn".
Definition ErrorLevel : Level := "error".
Definition FatalLevel : Level := "fatal".
Definition PanicLevel : Level := "panic".
Definition NoLevel : Level := "".

(** [levelOrder]. *)
Definition levelOrder : gmap string Z :=
  list_to_map [(DebugLevel, 0); (InfoLevel, 1); (WarnLevel, 2); (ErrorLevel, 3);
               (FatalLevel, 4); (PanicLevel, 5); (NoLevel, 6)].

(** [LevelOrder]: indexing a Go map with a key it does not hold gives the
    zero value. *)
Definition LevelOrder (lvl : Level) : Z := default 0 (levelOrder !! lvl).

(** An argument of a logging call ([interface{}]), as the callers in the
    sources pass them: a number, a string or an error. *)
Inductive arg : Type :=
| ArgInt (z : Z)
| ArgString (s : string)
| ArgError (e : error).

(** The twelve logging methods of [Logger]. *)
Inductive method : Type :=
| mPanic | mPanicf | mFatal | mFatalf | mError | mErrorf
| mWarn | mWarnf | mInfo | mInfof | mDebug | mDebugf.

(** A [Logger] interface value that is not [nil]: the [*fmtLogger] of the
    package, or a logger of the application, of which the model keeps a
    name and the level its [Level()] reports. *)
Inductive Logger : Type :=
| fmtLogger
| appLogger (name : string) (level : Level).

(** What [fmt.Print(args...)] and [fmt.Printf(msg, args...)] are given. *)
Inductive output : Type :=
| Print (args : list arg)
| Printf (msg : string) (args : list arg).

(** How a call ends: it returns, it panics with [args], or the process
    exits. *)
Inductive control : Type :=
| Continues
| Panics (args : list arg)
| Exits (code : Z).

(** The package variables [logger] and [once], the counters of
    [LogCounter] by label, what was printed, and the calls handed to a
    logger of the application. *)
Record state : Type :=
  { logger : Logger; once : bool; LogCounter : gmap string nat;
    stdout : list output;
    delivered : list (string * method * option string * list arg) }.

(** The package as it is loaded: [logger = &fmtLogger{}]. *)
Definition init : state :=
  {| logger := fmtLogger; once := false; LogCounter := ∅; stdout := [];
     delivered := [] |}.

(** [LogCounter.WithLabelValues(string(lvl)).Inc()]. *)
Definition Inc (lvl : Level) (s : state) : state :=
  {| logger := logger s; once := once s;
     LogCounter := <[lvl := S (default 0%nat (LogCounter s !! lvl))]> (LogCounter s);
     stdout := stdout s; delivered := delivered s |}.

(** [fmt.Print] and [fmt.Printf]. *)
Definition fmt_print (o : output) (s : state) : state :=
  {| logger := logger s; once := once s; LogCounter := LogCounter s;
     stdout := stdout s ++ [o]; delivered := delivered s |}.

(** The methods of [*fmtLogger]. *)
Definition fmtLogger_Panic (args : list arg) (s : state) : state * control :=
  (fmt_print (Print args) (Inc PanicLevel s), Panics args).

Definition fmtLogger_Panicf (msg : string) (args : list arg) (s : state) : state * control :=
  (fmt_print (Printf msg args) (Inc PanicLevel s), Panics args).

Definition fmtLogger_Fatal (args : list arg) (s : state) : state * control :=
  (fmt_print (Print args) (Inc FatalLevel s), Exits 1).

Definition fmtLogger_Fatalf (msg : string) (args : list arg) (s : state) : state * control :=
  (fmt_print (Printf msg args) (Inc FatalLevel s), Exits 1).

Definition fmtLogger_Error (args : list arg) (s : state) : state * control :=
  (fmt_print (Print args) (Inc ErrorLevel s), Continues).

Definition fmtLogger_Errorf (msg : string) (args : list arg) (s : state) : state * control :=
  (fmt_print (Printf msg args) (Inc ErrorLevel s), Continues).

Definition fmtLogger_Warn (args : list arg) (s : state) : state * control :=
  (fmt_print (Print args) (Inc WarnLevel s), Continues).

Definition fmtLogger_Warnf (msg : string) (args : list arg) (s : state) : state * control :=
  (fmt_print (Printf msg args) (Inc WarnLevel s), Continues).

Definition fmtLogger_Info (args : list arg) (s : state) : state * control :=
  (fmt_print (Print args) (Inc InfoLevel s), Continues).

Definition fmtLogger_Infof (msg : string) (args : list arg) (s : state) : state * control :=
  (fmt_print (Printf msg args) (Inc InfoLevel s), Continues).

Definition fmtLogger_Debug (args : list arg) (s : state) : state * control :=
  (fmt_print (Print args) (Inc DebugLevel s), Continues).

Definition fmtLogger_Debugf (msg : string) (args : list arg) (s : state) : state * control :=
  (fmt_print (Printf msg args) (Inc DebugLevel s), Continues).

(** [fmtLogger.Level] and [fmtLogger.Sub]. *)
Definition fmtLogger_Level : Level := DebugLevel.

Definition fmtLogger_Sub (ff : list (string * arg)) : Logger := fmtLogger.

(** [l.Level()]. *)
Definition Logger_Level (l : Logger) : Level :=
  match l with
  | fmtLogger => fmtLogger_Level
  | appLogger _ lvl => lvl
  end.

(** A call of a logging method on the package's logger: the method of
    [*fmtLogger], or the call handed to the logger of the application.
    [msg] is the format of the methods that have one. *)
Definition call (m : method) (msg : option string) (args : list arg) (s : state)
  : state * control :=
  match logger s with
  | fmtLogger =>
      match m with
      | mPanic => fmtLogger_Panic args s
      | mPanicf => fmtLogger_Panicf (default "" msg) args s
      | mFatal => fmtLogger_Fatal args s
      | mFatalf => fmtLogger_Fatalf (default "" msg) args s
      | mError => fmtLogger_Error args s
      | mErrorf => fmtLogger_Errorf (default "" msg) args s
      | mWarn => fmtLogger_Warn args s
      | mWarnf => fmtLogger_Warnf (default "" msg) args s
      | mInfo => fmtLogger_Info args s
      | mInfof => fmtLogger_Infof (default "" msg) args s
      | mDebug => fmtLogger_Debug args s
      | mDebugf => fmtLogger_Debugf (default "" msg) args s
      end
  | appLogger name _ =>
      ({| logger := logger s; once := once s; LogCounter := LogCounter s;
          stdout := stdout s; delivered := delivered s ++ [(name, m, msg, args)] |},
       Continues)
  end.

(** The functions of the package: each calls its method on [logger]. *)
Definition Panic (args : list arg) := call mPanic None args.
Definition Panicf (msg : string) (args : list arg) := call mPanicf (Some msg) args.
Definition Fatal (args : list arg) := call mFatal None args.
Definition Fatalf (msg : string) (args : list arg) := call mFatalf (Some msg) args.
Definition Error (args : list arg) := call mError None args.
Definition Errorf (msg : string) (args : list arg) := call mErrorf (Some msg) args.
Definition Warn (args : list arg) := call mWarn None args.
Definition Warnf (msg : string) (args : list arg) := call mWarnf (Some msg) args.
Definition Info (args : list arg) := call mInfo None args.
Definition Infof (msg : string) (args : list arg) := call mInfof (Some msg) args.
Definition Debug (args : list arg) := call mDebug None args.
Definition Debugf (msg : string) (args : list arg) := call mDebugf (Some msg) args.

(** The level a method counts under with [*fmtLogger]. *)
Definition level_of (m : method) : Level :=
  match m with
  | mPanic | mPanicf => PanicLevel
  | mFatal | mFatalf => FatalLevel
  | mError | mErrorf => ErrorLevel
  | mWarn | mWarnf => WarnLevel
  | mInfo | mInfof => InfoLevel
  | mDebug | mDebugf => DebugLevel
  end.

(** [Setup]: a [nil] logger is an error; [once.Do] lets the first call
    alone replace [logger]. *)
Definition Setup (l : option Logger) (s : state) : state * option error :=
  match l with
  | None => (s, Some (errors_New "logger is nil"))
  | Some l =>
      (if once s then s
       else {| logger := l; once := true; LogCounter := LogCounter s;
               stdout := stdout s; delivered := delivered s |},
       None)
  end.

(** [Enabled]. *)
Definition Enabled (l : Level) (s : state) : bool :=
  LevelOrder (Logger_Level (logger s)) <=? LevelOrder l.

(** A [context.Context]: the values it was given, the last one first.
    Only [WithContext] can use the key [ctxKey{}], so what is stored under
    it is a [Logger] interface value, [None] when [nil]. *)
Inductive ctxValue : Type :=
| ctxLogger (l : option Logger)
| ctxOther (k v : string).

Definition Context : Type := list ctxValue.

(** [ctx.Value(ctxKey{})]: the value of the innermost [WithContext]. *)
Fixpoint Value_ctxKey (ctx : Context) : option (option Logger) :=
  match ctx with
  | [] => None
  | ctxLogger l :: _ => Some l
  | ctxOther _ _ :: ctx => Value_ctxKey ctx
  end.

(** [WithContext]. *)
Definition WithContext (ctx : Context) (l : option Logger) : Context := ctxLogger l :: ctx.

(** [FromContext]: the type assertion to [Logger] fails on a [nil]
    interface value as it does on a missing one. *)
Definition FromContext (ctx : Context) (s : state) : Logger :=
  match Value_ctxKey ctx with
  | Some (Some l) => l
  | _ => logger s
  end.

End log.

(** * Package client/mqtt: the publisher

    The later of the two versions of the file in the sources, the one with
    tracing and metrics.  The connection manager of autopaho, the span of
    opentracing and the packages [trace] and [correlation] are outside the
    sources: a call to them is an event of the run, and what they return
    is given with the [Publisher] and its environment. *)
Module mqtt.

Definition componentType : string := "mqtt-publisher".

(** A line feed, for the formats that end in one. *)
Definition nl : string := String (Ascii.ascii_of_nat 10) EmptyString.

(** [autopaho.ClientConfig] with the embedded [paho.ClientConfig], in the
    fields [DefaultConfig] sets: broker URLs, the three connection
    settings, the client id and five callbacks ([None] is [nil]); every
    other field keeps its zero value.  A callback is what it does to
    package [log]. *)
Record ClientConfig : Type :=
  { BrokerUrls : list string;
    KeepAlive : Z;
    ConnectRetryDelay : Z;
    ConnectTimeout : Z;
    OnConnectionUp : option (Z -> log.state -> log.state * log.control);
    OnConnectError : option (error -> log.state -> log.state * log.control);
    ClientID : string;
    OnServerDisconnect : option (Z -> log.state -> log.state * log.control);
    OnClientError : option (error -> log.state -> log.state * log.control);
    PublishHook : option (string -> log.state -> log.state * log.control) }.

(** [autopaho.ClientConfig{}]. *)
Definition ClientConfig_zero : ClientConfig :=
  {| BrokerUrls := []; KeepAlive := 0; ConnectRetryDelay := 0; ConnectTimeout := 0;
     OnConnectionUp := None; OnConnectError := None; ClientID := "";
     OnServerDisconnect := None; OnClientError := None; PublishHook := None |}.

(** [DefaultConfig]. *)
Definition DefaultConfig (brokerURLs : list string) (clientID : string)
  : ClientConfig * option error :=
  match brokerURLs with
  | [] => (ClientConfig_zero, Some (errors_New "no broker URLs provided"))
  | _ =>
      if decide (clientID = "")
      then (ClientConfig_zero, Some (errors_New "no client id provided"))
      else
        ({| BrokerUrls := brokerURLs;
            KeepAlive := 30;
            ConnectRetryDelay := 5 * time_Second;
            ConnectTimeout := 1 * time_Second;
            OnConnectionUp :=
              Some (fun reasonCode =>
                      log.Infof ("connection is up with reason code: %d" +:+ nl)
                        [log.ArgInt reasonCode]);
            OnConnectError :=
              Some (fun err => log.Errorf ("failed to connect: %v" +:+ nl) [log.ArgError err]);
            ClientID := clientID;
            OnServerDisconnect :=
              Some (fun reasonCode =>
                      log.Warnf ("server disconnect received with reason code: %d" +:+ nl)
                        [log.ArgInt reasonCode]);
            OnClientError :=
              Some (fun err =>
                      log.Errorf ("client error occurred: %v" +:+ nl) [log.ArgError err]);
            PublishHook :=
              Some (fun topic =>
                      log.Debugf ("message published to topic: %s" +:+ nl)
                        [log.ArgString topic]) |},
         None)
  end.

(** [paho.UserProperties]: a slice of key and value pairs, [None] when
    [nil]; [Add] appends a pair. *)
Definition UserProperties : Type := option (list (string * string)).

Definition UserProperties_Add (u : UserProperties) (k v : string) : UserProperties :=
  Some (default [] u ++ [(k, v)]).

(** [paho.PublishProperties] and [paho.Publish]; a pointer field is an
    option. *)
Record PublishProperties : Type :=
  { CorrelationData : list byte; ContentType : string; ResponseTopic : string;
    PayloadFormat : option Z; MessageExpiry : option Z;
    SubscriptionIdentifier : option Z; TopicAlias : option Z;
    User : UserProperties }.

Record paho_Publish : Type :=
  { QoS : Z; Retain : bool; Topic : string; Properties : option PublishProperties;
    PacketID : Z; Payload : list byte }.

(** [&paho.PublishProperties{User: paho.UserProperties{}}]. *)
Definition PublishProperties_new : PublishProperties :=
  {| CorrelationData := []; ContentType := ""; ResponseTopic := "";
     PayloadFormat := None; MessageExpiry := None; SubscriptionIdentifier := None;
     TopicAlias := None; User := Some [] |}.

Definition set_Properties (pub : paho_Publish) (props : PublishProperties) : paho_Publish :=
  {| QoS := QoS pub; Retain := Retain pub; Topic := Topic pub; Properties := Some props;
     PacketID := PacketID pub; Payload := Payload pub |}.

Definition set_User (props : PublishProperties) (u : UserProperties) : PublishProperties :=
  {| CorrelationData := CorrelationData props; ContentType := ContentType props;
     ResponseTopic := ResponseTopic props; PayloadFormat := PayloadFormat props;
     MessageExpiry := MessageExpiry props;
     SubscriptionIdentifier := SubscriptionIdentifier props;
     TopicAlias := TopicAlias props; User := u |}.

(** [ensurePublishingProperties]. *)
Definition ensurePublishingProperties (pub : paho_Publish) : paho_Publish :=
  let pub :=
    match Properties pub with
    | None => set_Properties pub PublishProperties_new
    | Some _ => pub
    end in
  match Properties pub with
  | Some props =>
      match User props with
      | None => set_Properties pub (set_User props (Some []))
      | Some _ => pub
      end
  | None => pub
  end.

(** [mqttHeadersCarrier.Set]: the carrier is a slice of user properties
    of its own. *)
Definition mqttHeadersCarrier : Type := UserProperties.

Definition mqttHeadersCarrier_Set (m : mqttHeadersCarrier) (k v : string)
  : mqttHeadersCarrier :=
  let hdr := m in
  let hdr := UserProperties_Add hdr k v in
  hdr.

(** An [opentracing.Span], by what its tracer does on [Inject]: the
    headers it sets on the carrier, in order, and the error it returns. *)
Record Span : Type := { injected : list (string * string); inject_error : option error }.

(** What a call of [Publish] takes from outside: the span
    [trace.ChildSpan] returns, the id [correlation.IDFromContext(ctx)]
    returns, the constant [correlation.HeaderID], and the time
    [time.Since(start)] measures. *)
Record Env : Type :=
  { span : Span; correlationID : string; HeaderID : string; elapsed : Z }.

(** The user properties a message carries. *)
Definition user_properties (pub : paho_Publish) : list (string * string) :=
  match Properties pub with
  | Some props => default [] (User props)
  | None => []
  end.

(** [injectObservabilityHeaders]: the message after the call, the carrier
    [c] after [Inject], and the error.  [c] is a copy of the slice
    [pub.Properties.User]: what [Set] appends to [c] does not reach the
    slice of the message. *)
Definition injectObservabilityHeaders (env : Env) (pub : paho_Publish)
  : paho_Publish * mqttHeadersCarrier * option error :=
  let pub := ensurePublishingProperties pub in
  let pub :=
    match Properties pub with
    | Some props =>
        set_Properties pub
          (set_User props (UserProperties_Add (User props) (HeaderID env) (correlationID env)))
    | None => pub
    end in
  let c : mqttHeadersCarrier :=
    match Properties pub with
    | Some props => User props
    | None => None
    end in
  let c := foldl (fun c kv => mqttHeadersCarrier_Set c kv.1 kv.2) c (injected (span env)) in
  (pub, c, inject_error (span env)).

(** [paho.PublishResponse], by its reason code. *)
Record PublishResponse : Type := { ReasonCode : Z }.

(** [autopaho.ConnectionManager], by what its calls return. *)
Record ConnectionManager : Type :=
  { AwaitConnection : option error;
    cm_Publish : paho_Publish -> option PublishResponse * option error;
    cm_Disconnect : option error }.

Record Publisher : Type := { cm : ConnectionManager }.

(** The calls a [Publish] makes outside the package. *)
Inductive event : Type :=
| EvChildSpan (component topic : string)            (* trace.ChildSpan *)
| EvAwaitConnection                                 (* p.cm.AwaitConnection *)
| EvInject                                          (* sp.Tracer().Inject *)
| EvPublish (pub : paho_Publish)                    (* p.cm.Publish *)
| EvSpanComplete (err : option error)               (* trace.SpanComplete *)
| EvObserve (topic success : string) (d : Z).       (* durationHistogram.Observe *)

(** [strconv.FormatBool]. *)
Definition FormatBool (b : bool) : string := if b then "true" else "false".

(** [observePublish]; the histogram is given the duration in seconds, a
    float, which the event keeps as the duration itself. *)
Definition observePublish (env : Env) (topic : string) (err : option error) : list event :=
  [EvSpanComplete err;
   EvObserve topic (FormatBool (bool_decide (err = None))) (elapsed env)].

(** [Publisher.Publish]: the calls made, the message as the call leaves
    it, and the two results. *)
Definition Publish (p : Publisher) (env : Env) (pub : paho_Publish)
  : list event * paho_Publish * option PublishResponse * option error :=
  let evs := [EvChildSpan componentType (Topic pub); EvAwaitConnection] in
  match AwaitConnection (cm p) with
  | Some err =>
      (evs ++ observePublish env (Topic pub) (Some err), pub, None,
       Some (fmt_Errorf "connection is not up: %w" [] err))
  | None =>
      let '(pub, _, err) := injectObservabilityHeaders env pub in
      let evs := evs ++ [EvInject] in
      match err with
      | Some err =>
          (evs ++ observePublish env (Topic pub) (Some err), pub, None,
           Some (fmt_Errorf "failed to inject tracing headers: %w" [] err))
      | None =>
          let '(rsp, err) := cm_Publish (cm p) pub in
          let evs := evs ++ [EvPublish pub] in
          match err with
          | Some err =>
              (evs ++ observePublish env (Topic pub) (Some err), pub, None,
               Some (fmt_Errorf "failed to publish message: %w" [] err))
          | None => (evs ++ observePublish env (Topic pub) None, pub, rsp, None)
          end
      end
  end.

(** [Publisher.Disconnect]. *)
Definition Disconnect (p : Publisher) : option error := cm_Disconnect (cm p).

End mqtt.

(** ** What the properties of the two packages speak of *)

(** A call that started in state [s] and ended as [r] wrote one line with
    the default logger: it counted once under [lvl], printed once and
    returned. *)
Definition logs_one_line (lvl : log.Level) (s : log.state) (r : log.state * log.control)
  : Prop :=
  r.2 = log.Continues /\
  log.LogCounter r.1 !! lvl = Some (S (default 0%nat (log.LogCounter s !! lvl))) /\
  length (log.stdout r.1) = S (length (log.stdout s)).

(** The events of a run that observe the duration, that complete the
    span, and that publish. *)
Definition is_observe (e : mqtt.event) : bool :=
  match e with mqtt.EvObserve _ _ _ => true | _ => false end.

Definition is_span_complete (e : mqtt.event) : bool :=
  match e with mqtt.EvSpanComplete _ => true | _ => false end.

Definition published (evs : list mqtt.event) : list mqtt.paho_Publish :=
  omap (fun e => match e with mqtt.EvPublish m => Some m | _ => None end) evs.

(** A message with one user property, a publisher whose connection is up
    and whose broker accepts every message, and an environment whose
    tracer sets one header. *)
Definition sample_message : mqtt.paho_Publish :=
  {| mqtt.QoS := 1; mqtt.Retain := false; mqtt.Topic := "testTopic";
     mqtt.Properties :=
       Some (mqtt.set_User mqtt.PublishProperties_new (Some [("from", "test")]));
     mqtt.PacketID := 0; mqtt.Payload := bytes "123" |}.

Definition sample_publisher : mqtt.Publisher :=
  {| mqtt.cm :=
       {| mqtt.AwaitConnection := None;
          mqtt.cm_Publish := fun _ => (Some {| mqtt.ReasonCode := 0 |}, None);
          mqtt.cm_Disconnect := None |} |}.

Definition sample_env : mqtt.Env :=
  {| mqtt.span := {| mqtt.injected := [("mockpfx-ids-traceid", "43")];
                     mqtt.inject_error := None |};
     mqtt.correlationID := "id-1"; mqtt.HeaderID := "X-Correlation-Id";
     mqtt.elapsed := 1500 |}.

(** * Properties *)

(** ** Age and NewRouteCache *)

Lemma quot_below_second (d : Z) : 0 <= d < time_Second -> Z.quot d time_Second = 0.
Proof. intros Hd. apply Z.quot_small. exact Hd. Qed.

(** C9: an [Age] whose bounds are both positive and below one second is
    converted to [{min: 0, max: 0}], the conversion of the disabled
    [Age{0, 0}], and [NewRouteCache] builds from it the very route cache it
    builds from [Age{0, 0}]. *)
Theorem toAgeInSeconds_subsecond (ttlCache : option TTLCache) (a : Age) :
  0 < Min a < time_Second ->
  0 < Max a < time_Second ->
  toAgeInSeconds a = {| min := 0; max := 0 |} /\
  toAgeInSeconds a = toAgeInSeconds {| Min := 0; Max := 0 |} /\
  (NewRouteCache ttlCache a).1.1 = (NewRouteCache ttlCache {| Min := 0; Max := 0 |}).1.1.
Proof.
  intros Hmin Hmax.
  assert (E : toAgeInSeconds a = {| min := 0; max := 0 |}).
  { unfold toAgeInSeconds. rewrite !quot_below_second by lia. reflexivity. }
  split; [exact E|]. split; [rewrite E; reflexivity|].
  unfold NewRouteCache. cbn [fst]. rewrite E. reflexivity.
Qed.

(** An [Age] of 5ms to 900ms. *)
Lemma toAgeInSeconds_subsecond_witness :
  (0 < 5 * time_Millisecond < time_Second) /\
  toAgeInSeconds {| Min := 5 * time_Millisecond; Max := 900 * time_Millisecond |}
  = {| min := 0; max := 0 |}.
Proof.
  split; [unfold time_Millisecond, time_Second; lia|].
  apply (toAgeInSeconds_subsecond None
           {| Min := 5 * time_Millisecond; Max := 900 * time_Millisecond |});
    cbn; unfold time_Millisecond, time_Second; lia.
Defined.

(** C3, as the code has it: for every [Age] with [Min > Max],
    [NewRouteCache] reports the configuration error, and still returns a
    route cache, built from the store and the converted age. *)
Theorem NewRouteCache_min_above_max (ttlCache : option TTLCache) (a : Age) :
  Min a > Max a ->
  err_min_above_max ∈ (NewRouteCache ttlCache a).1.2 /\
  (NewRouteCache ttlCache a).1.1
  = Some {| cache := ttlCache; rc_age := toAgeInSeconds a |}.
Proof.
  intros Hgt. unfold NewRouteCache. cbn [fst snd].
  assert ((Min a >? Max a) = true) as -> by lia.
  split; [|reflexivity].
  apply elem_of_app. right. apply list_elem_of_singleton. reflexivity.
Qed.

(** An [Age] of 2s to 1s over the empty store. *)
Lemma NewRouteCache_min_above_max_witness :
  Min {| Min := 2 * time_Second; Max := time_Second |}
  > Max {| Min := 2 * time_Second; Max := time_Second |} /\
  (NewRouteCache (Some sample_store) {| Min := 2 * time_Second; Max := time_Second |}).1.1
  = Some {| cache := Some sample_store; rc_age := {| min := 2; max := 1 |} |}.
Proof.
  split; [reflexivity|].
  apply (NewRouteCache_min_above_max (Some sample_store)
           {| Min := 2 * time_Second; Max := time_Second |}).
  reflexivity.
Defined.

(** C3, as the claim has it, fails: with [Min = 2s > Max = 1s] an error is
    reported and a route cache is produced all the same. *)
Lemma NewRouteCache_min_above_max_produces_cache :
  Min {| Min := 2 * time_Second; Max := time_Second |}
  > Max {| Min := 2 * time_Second; Max := time_Second |} /\
  (NewRouteCache (Some sample_store) {| Min := 2 * time_Second; Max := time_Second |}).1.2
  = [err_min_above_max] /\
  (NewRouteCache (Some sample_store) {| Min := 2 * time_Second; Max := time_Second |}).1.1
  <> None.
Proof. split; [reflexivity|]. split; [reflexivity|]. discriminate. Qed.

(** C7: called with a [nil] store and an [Age] with [Min > Max],
    [NewRouteCache] returns both errors, in the order of the checks. *)
Theorem NewRouteCache_accumulates_errors (a : Age) :
  Min a > Max a ->
  (NewRouteCache None a).1.2 = [err_nil_cache; err_min_above_max].
Proof.
  intros Hgt. unfold NewRouteCache. cbn [fst snd].
  assert ((Min a >? Max a) = true) as -> by lia.
  reflexivity.
Qed.

(** An [Age] of 2s to 1s and no store. *)
Lemma NewRouteCache_accumulates_errors_witness :
  Min {| Min := 2 * time_Second; Max := time_Second |}
  > Max {| Min := 2 * time_Second; Max := time_Second |} /\
  (NewRouteCache None {| Min := 2 * time_Second; Max := time_Second |}).1.2
  = [err_nil_cache; err_min_above_max].
Proof.
  split; [reflexivity|].
  apply (NewRouteCache_accumulates_errors {| Min := 2 * time_Second; Max := time_Second |}).
  reflexivity.
Defined.

(** ** The capture writer *)

Section Capture.
Context {rt : GoRuntime}.

Lemma rw_Read_keeps (rw : responseReadWriter) (p : list byte) :
  len (rw_Read rw p).1.1.1 = len rw /\
  header (rw_Read rw p).1.1.1 = header rw /\
  statusCode (rw_Read rw p).1.1.1 = statusCode rw.
Proof.
  unfold rw_Read. destruct (Buffer_Read (buffer rw) p) as [[[b p'] n] err].
  cbn. auto.
Qed.

Lemma rw_ReadAll_keeps (rw : responseReadWriter) :
  len (rw_ReadAll rw).1.1 = len rw /\
  header (rw_ReadAll rw).1.1 = header rw /\
  statusCode (rw_ReadAll rw).1.1 = statusCode rw.
Proof.
  unfold rw_ReadAll. destruct (len rw =? 0); [cbn; auto|].
  pose proof (rw_Read_keeps rw (replicate (Z.to_nat (len rw)) x00)) as K.
  destruct (rw_Read rw (replicate (Z.to_nat (len rw)) x00)) as [[[rw' b'] n] err].
  exact K.
Qed.

Lemma do_call_statusCode (rw : responseReadWriter) (c : call) :
  never_WriteHeader [c] = true -> statusCode (do_call rw c) = statusCode rw.
Proof.
  destruct c as [p|code|op|p|]; cbn; intros Hc; try discriminate; try reflexivity.
  - apply rw_Read_keeps.
  - apply rw_ReadAll_keeps.
Qed.

Lemma foldl_do_call_statusCode (cs : list call) (rw : responseReadWriter) :
  never_WriteHeader cs = true -> statusCode (foldl do_call rw cs) = statusCode rw.
Proof.
  revert rw. induction cs as [|c cs IH]; intros rw Hcs; [reflexivity|].
  cbn in Hcs. apply andb_prop in Hcs as [Hc Hcs].
  cbn [foldl]. rewrite IH by exact Hcs.
  apply do_call_statusCode. cbn. rewrite Hc. reflexivity.
Qed.

(** C6, as the code has it: when the handler never calls [WriteHeader],
    the status code the capture writer has recorded at the end of the
    execution is 0, the zero value it was created with. *)
Theorem statusCode_never_set (hnd : http_Handler) (request : Request) :
  never_WriteHeader (hnd request) = true ->
  statusCode (ServeHTTP hnd newResponseReadWriter request) = 0.
Proof.
  intros Hcs. unfold ServeHTTP. rewrite foldl_do_call_statusCode by exact Hcs.
  reflexivity.
Qed.

Lemma do_call_nothing_captured (rw : responseReadWriter) (c : call) :
  writes_nothing [c] = true -> nothing_captured rw -> nothing_captured (do_call rw c).
Proof.
  intros Hc (Hb & Hl & Hh). unfold nothing_captured.
  destruct c as [p|code|op|p|]; cbn in Hc |- *; try discriminate.
  - destruct p; [|discriminate]. cbn. rewrite Hb. auto.
  - auto.
  - unfold rw_Read. rewrite Hb. cbn. auto.
  - unfold rw_ReadAll. rewrite Hl. cbn. auto.
Qed.

Lemma foldl_do_call_nothing_captured (cs : list call) (rw : responseReadWriter) :
  writes_nothing cs = true -> nothing_captured rw -> nothing_captured (foldl do_call rw cs).
Proof.
  revert rw. induction cs as [|c cs IH]; intros rw Hcs Hrw; [exact Hrw|].
  cbn in Hcs. apply andb_prop in Hcs as [Hc Hcs].
  cbn [foldl]. apply IH; [exact Hcs|].
  apply do_call_nothing_captured; [|exact Hrw].
  cbn. rewrite Hc. reflexivity.
Qed.

(** C8: when the handler writes nothing, the executor returns a response
    without error whose body and headers are empty. *)
Theorem httpExecutor_writes_nothing (w : ResponseWriter) (request : Request)
    (hnd : http_Handler) (nanos now : Z) (k : string) :
  writes_nothing (hnd request) = true ->
  httpExecutor w request hnd nanos now k
  = {| Response := {| Bytes := []; Header := ∅ |};
       LastValid := now;
       Etag := generateETag (bytes k) nanos;
       Err := None |}.
Proof.
  intros Hcs. unfold httpExecutor, ServeHTTP.
  destruct (foldl_do_call_nothing_captured (hnd request) newResponseReadWriter Hcs)
    as (Hb & Hl & Hh); [repeat split|].
  unfold rw_ReadAll. rewrite Hl. cbn. unfold rw_Header. rewrite Hh. reflexivity.
Qed.

(** What a handler that only writes leaves in the writer: every slice in
    the buffer, and the length of the last slice alone in [len]. *)
Lemma foldl_do_call_writes (ps : list (list byte)) (p : list byte) (rw : responseReadWriter) :
  buffer (foldl do_call rw (CallWrite <$> (ps ++ [p]))) = buffer rw ++ concat ps ++ p /\
  len (foldl do_call rw (CallWrite <$> (ps ++ [p]))) = Z.of_nat (length p).
Proof.
  revert rw. induction ps as [|q ps IH]; intros rw.
  - cbn. auto.
  - cbn [app fmap list_fmap foldl]. destruct (IH (do_call rw (CallWrite q))) as [Eb El].
    rewrite Eb, El. cbn. rewrite <- !app_assoc. auto.
Qed.

(** The body the executor returns for a handler that only writes, its
    last slice [p] not empty: the first [len p] bytes of all it wrote. *)
Lemma httpExecutor_only_writes (w : ResponseWriter) (request : Request)
    (hnd : http_Handler) (nanos now : Z) (k : string) (ps : list (list byte))
    (p : list byte) :
  hnd request = CallWrite <$> (ps ++ [p]) ->
  p <> [] ->
  Err (httpExecutor w request hnd nanos now k) = None /\
  Bytes (Response (httpExecutor w request hnd nanos now k))
  = take (length p) (concat ps ++ p).
Proof.
  intros Hcs Hp. unfold httpExecutor, ServeHTTP. rewrite Hcs.
  destruct (foldl_do_call_writes ps p newResponseReadWriter) as [Eb El].
  cbn [buffer newResponseReadWriter app] in Eb.
  unfold rw_ReadAll, rw_Read. rewrite El, Eb.
  assert ((Z.of_nat (length p) =? 0) = false) as ->.
  { apply Z.eqb_neq. destruct p; [congruence|]. cbn [length]. lia. }
  rewrite Nat2Z.id.
  destruct (concat ps ++ p) as [|b0 b] eqn:Ebuf.
  { apply app_eq_nil in Ebuf as [_ ->]. congruence. }
  cbn [Buffer_Read]. rewrite length_replicate, <- Ebuf.
  assert (length p <= length (concat ps ++ p))%nat as Hle
      by (rewrite length_app; lia).
  rewrite Nat.min_l by exact Hle.
  rewrite drop_replicate, Nat.sub_diag. cbn. rewrite app_nil_r. auto.
Qed.

(** The ETag of a response depends on the key and on the clock alone. *)
Lemma httpExecutor_Etag (w : ResponseWriter) (request : Request) (hnd : http_Handler)
    (nanos now : Z) (k : string) :
  Err (httpExecutor w request hnd nanos now k) = None ->
  Etag (httpExecutor w request hnd nanos now k) = generateETag (bytes k) nanos.
Proof.
  unfold httpExecutor.
  destruct (rw_ReadAll (ServeHTTP hnd newResponseReadWriter request)) as [[rw p] [e|]];
    cbn; [discriminate|reflexivity].
Qed.

(** C4, as the code has it: two executions with the same key and the same
    clock reading that both succeed produce the same ETag, that of the key
    and the nanoseconds, whatever the two handlers wrote. *)
Theorem Etag_ignores_payload (w : ResponseWriter) (request : Request)
    (hnd1 hnd2 : http_Handler) (nanos now : Z) (k : string) :
  Err (httpExecutor w request hnd1 nanos now k) = None ->
  Err (httpExecutor w request hnd2 nanos now k) = None ->
  Etag (httpExecutor w request hnd1 nanos now k) = generateETag (bytes k) nanos /\
  Etag (httpExecutor w request hnd2 nanos now k)
  = Etag (httpExecutor w request hnd1 nanos now k).
Proof.
  intros H1 H2. rewrite !httpExecutor_Etag by assumption. auto.
Qed.

End Capture.

(** When the buffer holds no more bytes than [len], a first [ReadAll]
    succeeds and drains the buffer, and a second [ReadAll] on the writer
    it leaves returns [io.EOF] with a slice of zero bytes. *)
Lemma ReadAll_single_shot (rw : responseReadWriter) :
  0 < len rw ->
  buffer rw <> [] ->
  (length (buffer rw) <= Z.to_nat (len rw))%nat ->
  exists rw1 : responseReadWriter,
    rw_ReadAll rw
    = (rw1, buffer rw ++ replicate (Z.to_nat (len rw) - length (buffer rw)) x00, None) /\
    rw_ReadAll rw1 = (rw1, replicate (Z.to_nat (len rw)) x00, Some io_EOF).
Proof.
  intros Hlen Hbuf Hle.
  destruct rw as [b l h sc]. cbn in *.
  exists {| buffer := []; len := l; header := h; statusCode := sc |}.
  assert ((l =? 0) = false) as El by lia.
  unfold rw_ReadAll, rw_Read. cbn. rewrite El.
  destruct b as [|b0 b]; [congruence|].
  cbn [Buffer_Read]. rewrite length_replicate.
  rewrite Nat.min_r by exact Hle.
  rewrite drop_all, take_ge by reflexivity. rewrite drop_replicate.
  split; [reflexivity|].
  destruct (Z.to_nat l) as [|m] eqn:Em; [lia|]. reflexivity.
Qed.

(** A new writer after one [Write] of ["v1"]. *)
Lemma ReadAll_single_shot_witness :
  exists rw1 : responseReadWriter,
    rw_ReadAll (rw_Write newResponseReadWriter (bytes "v1")).1.1
    = (rw1, bytes "v1", None) /\
    rw_ReadAll rw1 = (rw1, [x00; x00], Some io_EOF).
Proof.
  destruct (ReadAll_single_shot (rw_Write newResponseReadWriter (bytes "v1")).1.1)
    as [rw1 [E1 E2]]; [cbn; lia | cbn; discriminate | cbn; lia |].
  exists rw1. split; [exact E1 | exact E2].
Defined.

(** C10, on the code: after the writes ["ab"] and ["cde"], [Write] having
    kept the length of the last slice alone, a first [ReadAll] returns
    ["abc"] and a second one returns the two bytes left and a zero byte,
    without error, where the claim has an error. *)
Lemma ReadAll_twice_without_error :
  exists rw1 rw2 : responseReadWriter,
    rw_ReadAll
      (ServeHTTP (rt := sampleRuntime) handler_two_writes newResponseReadWriter sample_request)
    = (rw1, bytes "abc", None) /\
    rw_ReadAll rw1 = (rw2, bytes "de" ++ [x00], None).
Proof. eexists. eexists. split; reflexivity. Qed.

(** C2, on the code: after the writes ["ab"] and ["cde"] the handler has
    written ["abcde"], and the body of the response the executor builds is
    ["abc"]: as many bytes as the last write had, from the start of the
    buffer. *)
Theorem httpExecutor_body_two_writes :
  written (handler_two_writes sample_request) = bytes "abcde" /\
  Err (httpExecutor (rt := sampleRuntime) sample_writer sample_request handler_two_writes
         7 100 "GET /a") = None /\
  Bytes (Response (httpExecutor (rt := sampleRuntime) sample_writer sample_request
                     handler_two_writes 7 100 "GET /a")) = bytes "abc".
Proof. split; [reflexivity|]. split; reflexivity. Qed.

(** C6, as the claim has it, fails: a handler that writes a body and never
    calls [WriteHeader] leaves the recorded status code at 0, not 200. *)
Lemma statusCode_default_is_not_200 :
  never_WriteHeader (handler_two_writes sample_request) = true /\
  statusCode
    (ServeHTTP (rt := sampleRuntime) handler_two_writes newResponseReadWriter sample_request)
  = 0 /\
  statusCode
    (ServeHTTP (rt := sampleRuntime) handler_two_writes newResponseReadWriter sample_request)
  <> 200.
Proof. split; [reflexivity|]. split; [reflexivity|]. cbn. discriminate. Qed.

(** The handler that writes twice and sets no status. *)
Lemma statusCode_never_set_witness :
  never_WriteHeader (handler_two_writes sample_request) = true /\
  statusCode
    (ServeHTTP (rt := sampleRuntime) handler_two_writes newResponseReadWriter sample_request)
  = 0.
Proof.
  split; [reflexivity|].
  apply (statusCode_never_set (rt := sampleRuntime) handler_two_writes sample_request).
  reflexivity.
Defined.

(** A handler that answers 204 and writes nothing. *)
Lemma httpExecutor_writes_nothing_witness :
  writes_nothing [CallWriteHeader 204] = true /\
  httpExecutor (rt := sampleRuntime) sample_writer sample_request
    (fun _ => [CallWriteHeader 204]) 7 100 "GET /a"
  = {| Response := {| Bytes := []; Header := ∅ |};
       LastValid := 100;
       Etag := generateETag (GoRuntime := sampleRuntime) (bytes "GET /a") 7;
       Err := None |}.
Proof.
  split; [reflexivity|].
  apply (httpExecutor_writes_nothing (rt := sampleRuntime) sample_writer sample_request
           (fun _ => [CallWriteHeader 204]) 7 100 "GET /a").
  reflexivity.
Defined.

(** C4, as the claim has it, fails, whatever [generateETag] is: the
    handlers that write ["v1"] and ["v2"] give, for the same key and clock
    reading, different payloads under the same ETag. *)
Lemma Etag_does_not_follow_payload :
  ~ exists rt : GoRuntime,
      forall (w : ResponseWriter) (request : Request) (hnd1 hnd2 : http_Handler)
             (nanos now : Z) (k : string),
        Err (httpExecutor w request hnd1 nanos now k) = None ->
        Err (httpExecutor w request hnd2 nanos now k) = None ->
        Bytes (Response (httpExecutor w request hnd1 nanos now k))
        <> Bytes (Response (httpExecutor w request hnd2 nanos now k)) ->
        Etag (httpExecutor w request hnd1 nanos now k)
        <> Etag (httpExecutor w request hnd2 nanos now k).
Proof.
  intros [rt Hclaim].
  apply (Hclaim sample_writer sample_request
           (fun _ => [CallWrite (bytes "v1")]) (fun _ => [CallWrite (bytes "v2")])
           7 100 "GET /a").
  - reflexivity.
  - reflexivity.
  - cbn. discriminate.
  - reflexivity.
Qed.

(** The handlers that write ["v1"] and ["v2"]. *)
Lemma Etag_ignores_payload_witness :
  Bytes (Response (httpExecutor (rt := sampleRuntime) sample_writer sample_request
                     (fun _ => [CallWrite (bytes "v1")]) 7 100 "GET /a"))
  <> Bytes (Response (httpExecutor (rt := sampleRuntime) sample_writer sample_request
                        (fun _ => [CallWrite (bytes "v2")]) 7 100 "GET /a")) /\
  Etag (httpExecutor (rt := sampleRuntime) sample_writer sample_request
          (fun _ => [CallWrite (bytes "v2")]) 7 100 "GET /a")
  = Etag (httpExecutor (rt := sampleRuntime) sample_writer sample_request
            (fun _ => [CallWrite (bytes "v1")]) 7 100 "GET /a").
Proof.
  split; [cbn; discriminate|].
  apply (Etag_ignores_payload (rt := sampleRuntime) sample_writer sample_request
           (fun _ => [CallWrite (bytes "v1")]) (fun _ => [CallWrite (bytes "v2")])
           7 100 "GET /a"); reflexivity.
Defined.

(** ** The orchestrator *)

Section Orchestration.
Context {rt : GoRuntime}.

(** When the decision engine answers with a hit. *)
Lemma decide_outcome_HIT (a : age) (req : handlerRequest) (entry : option response)
    (now : Z) (e : response) :
  decide_outcome a req entry now = HIT e <->
  ~ (min a = 0 /\ max a = 0) /\
  entry = Some e /\
  now - LastValid e <= effectiveMaxAge a (maxAge req) /\
  effectiveMinFresh a (minFresh req) <= effectiveMaxAge a (maxAge req) - (now - LastValid e).
Proof.
  unfold decide_outcome.
  destruct ((min a =? 0) && (max a =? 0)) eqn:Ez.
  - split; [discriminate|]. intros [Hn _]. exfalso. apply Hn. lia.
  - destruct entry as [e'|]; [|split; [discriminate|intros (_ & ? & _); discriminate]].
    destruct ((now - LastValid e' <=? effectiveMaxAge a (maxAge req))
              && (effectiveMinFresh a (minFresh req)
                  <=? effectiveMaxAge a (maxAge req) - (now - LastValid e'))) eqn:Ef.
    + split.
      * intros [= <-]. repeat split; lia.
      * intros (_ & [= <-] & _). reflexivity.
    + split; [discriminate|]. intros (_ & [= <-] & H1 & H2). lia.
Qed.

(** The scenario of the spec, on a route with ages 0s to 60s and an entry
    generated at time 100: ten seconds later it is a hit without client
    directives and a miss under [max-age=5]; seventy seconds later it is a
    miss. *)
Lemma decide_outcome_scenario :
  decide_outcome {| min := 0; max := 60 |}
    {| key := "GET /a"; maxAge := None; minFresh := None |} (Some sample_entry) 110
  = HIT sample_entry /\
  decide_outcome {| min := 0; max := 60 |}
    {| key := "GET /a"; maxAge := Some 5; minFresh := None |} (Some sample_entry) 110
  = MISS /\
  decide_outcome {| min := 0; max := 60 |}
    {| key := "GET /a"; maxAge := None; minFresh := None |} (Some sample_entry) 170
  = MISS.
Proof. split; [reflexivity|]. split; reflexivity. Qed.

Lemma Handler_setHeaders_spec (kvs : list (string * list string)) (h : http_Header) :
  (forall k vs, (k, vs) ∈ kvs -> vs <> []) ->
  exists h' : http_Header,
    Handler_setHeaders kvs h = Returned h' /\
    forall k' : string,
      (h' !! k' = h !! k' /\
       forall k vs, (k, vs) ∈ kvs -> CanonicalMIMEHeaderKey k <> k') \/
      (exists (k v : string) (vs : list string),
          (k, v :: vs) ∈ kvs /\ CanonicalMIMEHeaderKey k = k' /\ h' !! k' = Some [v]).
Proof.
  revert h. induction kvs as [|[k0 vs0] kvs IH]; intros h Hne.
  - exists h. split; [reflexivity|]. intros k'. left. split; [reflexivity|].
    intros k vs Hin. inversion Hin.
  - destruct vs0 as [|v0 vs0].
    { exfalso. apply (Hne k0 []); [left|reflexivity]. }
    destruct (IH (Header_Set h k0 v0)) as (h' & Eh' & Hh').
    { intros k vs Hin. apply (Hne k vs). right. exact Hin. }
    exists h'. split; [exact Eh'|]. intros k'.
    destruct (Hh' k') as [[Hsame Hnone]|(k & v & vs & Hin & Hk & Hv)].
    + destruct (decide (CanonicalMIMEHeaderKey k0 = k')) as [Hk0|Hk0].
      * right. exists k0, v0, vs0. split; [left|]. split; [exact Hk0|].
        rewrite Hsame. unfold Header_Set. rewrite Hk0. apply lookup_insert_eq.
      * left. split.
        -- rewrite Hsame. unfold Header_Set. apply lookup_insert_ne. exact Hk0.
        -- intros k vs Hin. apply elem_of_cons in Hin as [[= -> ->]|Hin];
             [exact Hk0|exact (Hnone k vs Hin)].
    + right. exists k, v, vs. split; [right; exact Hin|]. split; [exact Hk|exact Hv].
Qed.

Lemma elem_of_rangeHeader (H : http_Header) (k : string) (vs : list string) :
  (k, vs) ∈ rangeHeader H <-> H !! k = Some vs.
Proof. rewrite (rangeHeader_perm H). apply elem_of_map_to_list. Qed.

(** What [Handler] writes for a response whose header keys all have a
    value, on a working connection. *)
Lemma Handler_write_spec (w : ResponseWriter) (response : handlerResponse) :
  map_Forall (fun _ vs => vs <> []) (Header response) ->
  w_fault w = None ->
  exists w' : ResponseWriter,
    Handler_write w response = Returned (None, w') /\
    w_body w' = w_body w ++ Bytes response /\
    w_status w' = Some (default 200 (w_status w)) /\
    first_values_set (Header response) (w_header w) (w_header w').
Proof.
  intros Hne Hok. unfold Handler_write.
  destruct (Handler_setHeaders_spec (rangeHeader (Header response)) (w_header w))
    as (h' & -> & Hh').
  { intros k vs Hin. apply elem_of_rangeHeader in Hin. exact (Hne k vs Hin). }
  unfold w_Write. cbn. rewrite Hok.
  eexists. split; [reflexivity|]. cbn. split; [reflexivity|]. split; [reflexivity|].
  intros k'. destruct (Hh' k') as [[Hsame Hnone]|(k & v & vs & Hin & Hk & Hv)].
  - left. split; [exact Hsame|]. intros k [vs Hk].
    apply (Hnone k vs). apply elem_of_rangeHeader. exact Hk.
  - right. exists k, v, vs. split; [apply elem_of_rangeHeader; exact Hin|].
    split; [exact Hk|exact Hv].
Qed.

(** When no two keys of [H] share a canonical form, [first_values_set]
    puts the first value of every key of [H] under its canonical form. *)
Lemma first_values_set_distinct_keys (H h h' : http_Header) :
  first_values_set H h h' ->
  (forall k1 k2 : string,
      is_Some (H !! k1) -> is_Some (H !! k2) ->
      CanonicalMIMEHeaderKey k1 = CanonicalMIMEHeaderKey k2 -> k1 = k2) ->
  forall (k v : string) (vs : list string),
    H !! k = Some (v :: vs) -> h' !! CanonicalMIMEHeaderKey k = Some [v].
Proof.
  intros Hh Hinj k v vs Hk.
  destruct (Hh (CanonicalMIMEHeaderKey k)) as [[_ Hnone]|(k2 & v2 & vs2 & Hk2 & Hc & Hv)].
  - exfalso. apply (Hnone k); [rewrite Hk; eauto|reflexivity].
  - assert (k2 = k) as -> by (apply Hinj; [rewrite Hk2; eauto|rewrite Hk; eauto|exact Hc]).
    rewrite Hk in Hk2. injection Hk2 as <- <-. exact Hv.
Qed.

(** C1, as the code has it: on every hit the decision engine returns the
    entry without a run of the wrapped handler and with the store as it
    was, and [Handler] only writes that entry out: whenever it returns,
    with or without a write error, no run has taken place and the store is
    as it was, and it panics when its write-out does.  When every header
    key of the entry has a value and the connection works, [Handler]
    returns no error and the writer has received the body of the entry and
    status 200 unless a status was written before; each of its header keys
    keeps its values when no key of the entry has it as canonical form, and
    else holds one value, the first value of a key of the entry with that
    canonical form; when no two keys of the entry share a canonical form,
    every key of the entry has its first value alone under its canonical
    form. *)
Theorem Handler_HIT (w : ResponseWriter) (r : Request) (rc : RouteCache) (c : TTLCache)
    (e : response) (httpHandler : http_Handler) (now nanos : Z) :
  cache rc = Some c ->
  decide_outcome (rc_age rc) (toCacheHandlerRequest r) (lookup_entry c (cacheKey r)) now
  = HIT e ->
  handler (httpExecutor w r httpHandler nanos) rc now (toCacheHandlerRequest r)
  = Returned (Some (Response e), None, rc, 0%nat) /\
  Handler w r rc httpHandler now nanos
  = match Handler_write w (Response e) with
    | Panicked => Panicked
    | Returned (err, w') => Returned (err, w', rc, 0%nat)
    end /\
  (map_Forall (fun _ vs => vs <> []) (Header (Response e)) ->
   w_fault w = None ->
   exists w' : ResponseWriter,
     Handler w r rc httpHandler now nanos = Returned (None, w', rc, 0%nat) /\
     w_body w' = w_body w ++ Bytes (Response e) /\
     w_status w' = Some (default 200 (w_status w)) /\
     first_values_set (Header (Response e)) (w_header w) (w_header w') /\
     ((forall k1 k2 : string,
          is_Some (Header (Response e) !! k1) -> is_Some (Header (Response e) !! k2) ->
          CanonicalMIMEHeaderKey k1 = CanonicalMIMEHeaderKey k2 -> k1 = k2) ->
      forall (k v : string) (vs : list string),
        Header (Response e) !! k = Some (v :: vs) ->
        w_header w' !! CanonicalMIMEHeaderKey k = Some [v])).
Proof.
  intros Hc Hhit.
  assert (handler (httpExecutor w r httpHandler nanos) rc now (toCacheHandlerRequest r)
          = Returned (Some (Response e), None, rc, 0%nat)) as Eng.
  { unfold handler. rewrite Hc. cbn [key toCacheHandlerRequest].
    rewrite Hhit. reflexivity. }
  assert (Handler w r rc httpHandler now nanos
          = match Handler_write w (Response e) with
            | Panicked => Panicked
            | Returned (err, w') => Returned (err, w', rc, 0%nat)
            end) as EH.
  { unfold Handler. rewrite Eng.
    destruct (Handler_write w (Response e)) as [[err w']|]; reflexivity. }
  split; [exact Eng|]. split; [exact EH|].
  intros Hne Hok.
  destruct (Handler_write_spec w (Response e) Hne Hok) as (w' & Ew & Hb & Hs & Hh).
  exists w'. rewrite EH, Ew.
  split; [reflexivity|]. split; [exact Hb|]. split; [exact Hs|]. split; [exact Hh|].
  intros Hinj. exact (first_values_set_distinct_keys _ _ _ Hh Hinj).
Qed.

(** C5, as the code has it: when the outcome is no hit and the execution
    of the handler fails, [Handler] returns the failure wrapped in an
    error of its own, and leaves the writer and the route cache with its
    store as they were. *)
Theorem Handler_execution_error (w : ResponseWriter) (r : Request) (rc : RouteCache)
    (c : TTLCache) (httpHandler : http_Handler) (now nanos : Z) (err : error) :
  cache rc = Some c ->
  (forall e : response,
      decide_outcome (rc_age rc) (toCacheHandlerRequest r) (lookup_entry c (cacheKey r)) now
      <> HIT e) ->
  Err (httpExecutor w r httpHandler nanos now (cacheKey r)) = Some err ->
  Handler w r rc httpHandler now nanos
  = Returned (Some (fmt_Errorf msg_could_not_handle [] err), w, rc, 1%nat) /\
  errors_Unwrap (fmt_Errorf msg_could_not_handle [] err) = Some err.
Proof.
  intros Hc Hmiss Herr. split; [|reflexivity].
  unfold Handler, handler. rewrite Hc. cbn [key toCacheHandlerRequest].
  destruct (decide_outcome (rc_age rc) (toCacheHandlerRequest r)
              (lookup_entry c (cacheKey r)) now) as [e| |] eqn:Ed.
  - exfalso. exact (Hmiss e eq_refl).
  - cbn [key toCacheHandlerRequest] in Ed. rewrite Herr. reflexivity.
  - cbn [key toCacheHandlerRequest] in Ed. rewrite Herr. reflexivity.
Qed.

End Orchestration.

(** C1, as the claim has it, fails.  At time 100 the store is empty:
    [handler_404] runs and its response is stored.  At time 110 the entry
    is served and the handler does not run; the capture writer had
    recorded status 404 and two values under [Accept], the writer receives
    status 200 and the first value alone. *)
Lemma Handler_HIT_replays_neither_status_nor_all_values :
  Handler (rt := sampleRuntime) sample_writer sample_request sample_routeCache
    handler_404 100 5
  = Returned (None,
              {| w_header := {[ "Accept" := ["text/html"] ]}; w_status := Some 200;
                 w_body := bytes "v1"; w_fault := None |},
              sample_routeCache_filled, 1%nat) /\
  Handler (rt := sampleRuntime) sample_writer sample_request sample_routeCache_filled
    handler_404 110 7
  = Returned (None,
              {| w_header := {[ "Accept" := ["text/html"] ]}; w_status := Some 200;
                 w_body := bytes "v1"; w_fault := None |},
              sample_routeCache_filled, 0%nat) /\
  statusCode (ServeHTTP (rt := sampleRuntime) handler_404 newResponseReadWriter
                sample_request) = 404 /\
  header (ServeHTTP (rt := sampleRuntime) handler_404 newResponseReadWriter
            sample_request) = {[ "Accept" := ["text/html"; "text/plain"] ]}.
Proof.
  split; [vm_compute; reflexivity|].
  split; [vm_compute; reflexivity|].
  split; vm_compute; reflexivity.
Qed.

(** The stored entry of time 100, requested at time 110. *)
Lemma Handler_HIT_witness :
  exists w' : ResponseWriter,
    Handler (rt := sampleRuntime) sample_writer sample_request sample_routeCache_filled
      handler_404 110 7
    = Returned (None, w', sample_routeCache_filled, 0%nat) /\
    w_body w' = bytes "v1" /\
    w_status w' = Some 200.
Proof.
  destruct (Handler_HIT (rt := sampleRuntime) sample_writer sample_request
              sample_routeCache_filled
              {| entries := {[ "GET /a" := (sample_entry, 60 * time_Second) ]};
                 outage := None |}
              sample_entry handler_404 110 7)
    as (_ & _ & Hwritten).
  - reflexivity.
  - vm_compute. reflexivity.
  - destruct Hwritten as (w' & EH & Eb & Es & _).
    + apply map_Forall_singleton. discriminate.
    + reflexivity.
    + exists w'. split; [exact EH|]. split; [exact Eb | exact Es].
Defined.

(** C5, as the claim has it, fails.  The store is empty and the execution
    of [handler_reads_back] fails with [io.EOF]; the writer and the store
    stay as they were, and the error [Handler] returns is not [io.EOF] but
    an error that wraps it. *)
Lemma Handler_wraps_the_failure :
  Err (httpExecutor (rt := sampleRuntime) sample_writer sample_request handler_reads_back
         7 100 "GET /a") = Some io_EOF /\
  Handler (rt := sampleRuntime) sample_writer sample_request sample_routeCache
    handler_reads_back 100 7
  = Returned (Some (fmt_Errorf msg_could_not_handle [] io_EOF),
              sample_writer, sample_routeCache, 1%nat) /\
  fmt_Errorf msg_could_not_handle [] io_EOF <> io_EOF.
Proof.
  split; [vm_compute; reflexivity|].
  split; [vm_compute; reflexivity|].
  discriminate.
Qed.

(** The handler that reads back what it wrote, over the empty store. *)
Lemma Handler_execution_error_witness :
  Err (httpExecutor (rt := sampleRuntime) sample_writer sample_request handler_reads_back
         7 100 "GET /a") = Some io_EOF /\
  Handler (rt := sampleRuntime) sample_writer sample_request sample_routeCache
    handler_reads_back 100 7
  = Returned (Some (fmt_Errorf msg_could_not_handle [] io_EOF),
              sample_writer, sample_routeCache, 1%nat).
Proof.
  split; [vm_compute; reflexivity|].
  apply (Handler_execution_error (rt := sampleRuntime) sample_writer sample_request
           sample_routeCache sample_store handler_reads_back 100 7 io_EOF).
  - reflexivity.
  - intros e. vm_compute. discriminate.
  - vm_compute. reflexivity.
Defined.

(** * Further properties of the route cache *)

(** X1: [NewRouteCache] returns an empty error list exactly when the
    store is not [nil] and [Min] does not exceed [Max]. *)
Theorem NewRouteCache_no_error_iff (ttlCache : option TTLCache) (a : Age) :
  (NewRouteCache ttlCache a).1.2 = [] <-> ttlCache <> None /\ Min a <= Max a.
Proof.
  unfold NewRouteCache. cbn [fst snd].
  destruct ttlCache as [c|]; destruct (Z.gtb_spec (Min a) (Max a)) as [Hgt|Hle]; cbn.
  - split; [discriminate|]. intros [_ Hle]. lia.
  - split; [intros _; split; [discriminate|exact Hle]|reflexivity].
  - split; [discriminate|]. intros [Hn _]. congruence.
  - split; [discriminate|]. intros [Hn _]. congruence.
Qed.

(** X2: the conversion to seconds keeps the order of the bounds: an
    [Age] with [Min <= Max] gives an [age] with [min <= max]. *)
Theorem toAgeInSeconds_keeps_order (a : Age) :
  Min a <= Max a -> min (toAgeInSeconds a) <= max (toAgeInSeconds a).
Proof.
  intros Hle. unfold toAgeInSeconds. cbn.
  apply Z.quot_le_mono; [unfold time_Second; lia|exact Hle].
Qed.

(** An [Age] of 1.5s to 2.7s becomes 1 to 2. *)
Lemma toAgeInSeconds_keeps_order_witness :
  Min {| Min := 1500 * time_Millisecond; Max := 2700 * time_Millisecond |}
  <= Max {| Min := 1500 * time_Millisecond; Max := 2700 * time_Millisecond |} /\
  min (toAgeInSeconds {| Min := 1500 * time_Millisecond; Max := 2700 * time_Millisecond |})
  <= max (toAgeInSeconds {| Min := 1500 * time_Millisecond; Max := 2700 * time_Millisecond |}).
Proof.
  split; [cbn; unfold time_Millisecond; lia|].
  apply (toAgeInSeconds_keeps_order
           {| Min := 1500 * time_Millisecond; Max := 2700 * time_Millisecond |}).
  cbn. unfold time_Millisecond. lia.
Defined.

(** X3: bounds given in whole seconds, negative ones too, come back as
    the very numbers of seconds. *)
Theorem toAgeInSeconds_whole_seconds (m n : Z) :
  toAgeInSeconds {| Min := m * time_Second; Max := n * time_Second |}
  = {| min := m; max := n |}.
Proof.
  unfold toAgeInSeconds. cbn.
  rewrite !Z.quot_mul by (unfold time_Second; lia). reflexivity.
Qed.

Section CaptureInterface.
Context {rt : GoRuntime}.

(** [ReadAll] when the buffer holds at least [len] bytes: the first [len]
    bytes, without error. *)
Lemma rw_ReadAll_prefix (rw : responseReadWriter) :
  0 <= len rw ->
  (Z.to_nat (len rw) <= length (buffer rw))%nat ->
  rw_ReadAll rw
  = ({| buffer := drop (Z.to_nat (len rw)) (buffer rw); len := len rw;
        header := header rw; statusCode := statusCode rw |},
     take (Z.to_nat (len rw)) (buffer rw), None).
Proof.
  intros H0 Hle. destruct rw as [b l h sc]. cbn in *.
  unfold rw_ReadAll, rw_Read. cbn.
  destruct (Z.eqb_spec l 0) as [->|Hl]; [reflexivity|].
  destruct b as [|b0 b]; [cbn in Hle; lia|].
  cbn [Buffer_Read]. rewrite length_replicate.
  rewrite Nat.min_l by exact Hle.
  rewrite drop_replicate, Nat.sub_diag. cbn [replicate]. rewrite app_nil_r.
  reflexivity.
Qed.

(** What a handler that never reads leaves in the writer: all it wrote in
    the buffer, and the length of its last slice in [len]. *)
Lemma foldl_do_call_interface_only (cs : list call) (rw : responseReadWriter) :
  interface_only cs = true ->
  buffer (foldl do_call rw cs) = buffer rw ++ written cs /\
  len (foldl do_call rw cs)
  = match last (writes cs) with Some p => Z.of_nat (length p) | None => len rw end.
Proof.
  revert rw. induction cs as [|c cs IH]; intros rw Hcs.
  - cbn. rewrite app_nil_r. auto.
  - cbn in Hcs. apply andb_prop in Hcs as [Hc Hcs].
    cbn [foldl]. destruct (IH (do_call rw c) Hcs) as [Eb El]. rewrite Eb, El.
    destruct c as [p|code|op|p|]; try discriminate; cbn.
    + unfold written. cbn. rewrite <- app_assoc. split; [reflexivity|].
      fold (writes cs). rewrite last_cons. destruct (last (writes cs)); reflexivity.
    + auto.
    + auto.
Qed.

Lemma last_write_fits (cs : list call) (p : list byte) :
  last (writes cs) = Some p -> (length p <= length (written cs))%nat.
Proof.
  intros Hl. apply last_Some in Hl as [ps Eps].
  unfold written. fold (writes cs). rewrite Eps, concat_app, length_app. cbn.
  rewrite app_nil_r. lia.
Qed.

Lemma httpExecutor_never_reads (w : ResponseWriter) (request : Request)
    (hnd : http_Handler) (nanos now : Z) (k : string) :
  interface_only (hnd request) = true ->
  Err (httpExecutor w request hnd nanos now k) = None /\
  Bytes (Response (httpExecutor w request hnd nanos now k))
  = take (length (default [] (last (writes (hnd request))))) (written (hnd request)).
Proof.
  intros Hcs. unfold httpExecutor, ServeHTTP.
  destruct (foldl_do_call_interface_only (hnd request) newResponseReadWriter Hcs)
    as [Eb El].
  cbn [buffer len newResponseReadWriter app] in Eb, El.
  rewrite rw_ReadAll_prefix.
  - cbn. rewrite El, Eb. destruct (last (writes (hnd request))) as [p|]; cbn.
    + rewrite Nat2Z.id. auto.
    + auto.
  - rewrite El. destruct (last (writes (hnd request))); lia.
  - rewrite El, Eb. destruct (last (writes (hnd request))) as [p|] eqn:Hl.
    + rewrite Nat2Z.id. apply last_write_fits. exact Hl.
    + cbn. lia.
Qed.

(** X4: for a handler that uses its writer through [http.ResponseWriter]
    alone, the executor never fails, and the body of its response is the
    first bytes of all the handler wrote, as many as its last [Write]
    passed. *)
Theorem httpExecutor_interface_only (w : ResponseWriter) (request : Request)
    (hnd : http_Handler) (nanos now : Z) (k : string) :
  interface_only (hnd request) = true ->
  Err (httpExecutor w request hnd nanos now k) = None /\
  Bytes (Response (httpExecutor w request hnd nanos now k))
  = take (length (default [] (last (writes (hnd request))))) (written (hnd request)).
Proof. apply httpExecutor_never_reads. Qed.

(** X5: when the handler uses [http.ResponseWriter] alone and calls
    [Write] once, with [p], the body of the response is [p], whatever
    headers and status codes it sets before or after. *)
Theorem httpExecutor_single_write (w : ResponseWriter) (request : Request)
    (hnd : http_Handler) (nanos now : Z) (k : string) (p : list byte) :
  interface_only (hnd request) = true ->
  writes (hnd request) = [p] ->
  Err (httpExecutor w request hnd nanos now k) = None /\
  Bytes (Response (httpExecutor w request hnd nanos now k)) = p.
Proof.
  intros Hcs Hw.
  destruct (httpExecutor_never_reads w request hnd nanos now k Hcs) as [-> ->].
  split; [reflexivity|].
  unfold written. fold (writes (hnd request)). rewrite Hw. cbn.
  rewrite app_nil_r. apply take_ge. reflexivity.
Qed.

Lemma do_call_header (rw : responseReadWriter) (c : call) :
  header (do_call rw c)
  = match c with CallHeader op => apply_headerOp op (header rw) | _ => header rw end.
Proof.
  destruct c as [p|code|op|p|]; cbn; try reflexivity.
  - apply rw_Read_keeps.
  - apply rw_ReadAll_keeps.
Qed.

Lemma foldl_do_call_header (cs : list call) (rw : responseReadWriter) :
  header (foldl do_call rw cs)
  = foldl (fun h op => apply_headerOp op h) (header rw) (header_ops cs).
Proof.
  revert rw. induction cs as [|c cs IH]; intros rw; [reflexivity|].
  cbn [foldl]. rewrite IH, do_call_header.
  destruct c; reflexivity.
Qed.

(** X6: the headers of a response are the changes the handler made to
    the header map, applied in order to an empty map; what it wrote, the
    status codes it set and what it read leave them alone. *)
Theorem httpExecutor_headers (w : ResponseWriter) (request : Request)
    (hnd : http_Handler) (nanos now : Z) (k : string) :
  Err (httpExecutor w request hnd nanos now k) = None ->
  Header (Response (httpExecutor w request hnd nanos now k))
  = foldl (fun h op => apply_headerOp op h) ∅ (header_ops (hnd request)).
Proof.
  unfold httpExecutor, ServeHTTP.
  pose proof (rw_ReadAll_keeps (foldl do_call newResponseReadWriter (hnd request)))
    as (_ & Hh & _).
  destruct (rw_ReadAll (foldl do_call newResponseReadWriter (hnd request)))
    as [[rw p] [e|]]; cbn; [discriminate|].
  intros _. cbn in Hh. unfold rw_Header. rewrite Hh.
  apply foldl_do_call_header.
Qed.

(** X7: the status code the capture writer holds is that of the last
    [WriteHeader] call; an earlier call does not fix it. *)
Theorem statusCode_last_WriteHeader (hnd : http_Handler) (request : Request)
    (before after : list call) (code : Z) :
  hnd request = before ++ CallWriteHeader code :: after ->
  never_WriteHeader after = true ->
  statusCode (ServeHTTP hnd newResponseReadWriter request) = code.
Proof.
  intros Hcs Hafter. unfold ServeHTTP. rewrite Hcs, foldl_app. cbn [foldl].
  rewrite foldl_do_call_statusCode by exact Hafter. reflexivity.
Qed.

Lemma Handler_setHeaders_no_value (kvs : list (string * list string)) (h : http_Header)
    (k : string) :
  (k, []) ∈ kvs -> Handler_setHeaders kvs h = Panicked.
Proof.
  revert h. induction kvs as [|[k0 vs0] kvs IH]; intros h Hin; [inversion Hin|].
  destruct vs0 as [|v0 vs0]; [reflexivity|].
  cbn. apply IH. apply elem_of_cons in Hin as [[=]|Hin]. exact Hin.
Qed.

(** X8: a response one of whose header keys has no value makes the
    write-out of [Handler] panic, whatever the other headers are and in
    whatever order the map is visited. *)
Theorem Handler_write_no_value (w : ResponseWriter) (response : handlerResponse)
    (k : string) :
  Header response !! k = Some [] -> Handler_write w response = Panicked.
Proof.
  intros Hk. unfold Handler_write.
  rewrite (Handler_setHeaders_no_value _ _ k); [reflexivity|].
  rewrite (rangeHeader_perm (Header response)). apply elem_of_map_to_list. exact Hk.
Qed.

(** X9: when no two header keys of the response share a canonical form,
    every key with values ends, in the writer, under its canonical form
    with its first value alone, in whatever order the map is visited. *)
Theorem Handler_write_first_values (w : ResponseWriter) (response : handlerResponse) :
  (forall k1 k2 : string,
      is_Some (Header response !! k1) -> is_Some (Header response !! k2) ->
      CanonicalMIMEHeaderKey k1 = CanonicalMIMEHeaderKey k2 -> k1 = k2) ->
  map_Forall (fun _ vs => vs <> []) (Header response) ->
  w_fault w = None ->
  exists w' : ResponseWriter,
    Handler_write w response = Returned (None, w') /\
    forall (k v : string) (vs : list string),
      Header response !! k = Some (v :: vs) ->
      w_header w' !! CanonicalMIMEHeaderKey k = Some [v].
Proof.
  intros Hinj Hne Hok.
  destruct (Handler_write_spec w response Hne Hok) as (w' & Ew & _ & _ & Hh).
  exists w'. split; [exact Ew|]. intros k v vs Hk.
  destruct (Hh (CanonicalMIMEHeaderKey k)) as [[_ Hnone]|(k2 & v2 & vs2 & Hk2 & Hc & Hv)].
  - exfalso. apply (Hnone k); [rewrite Hk; eauto|reflexivity].
  - assert (k2 = k) as -> by (apply Hinj; [rewrite Hk2; eauto|rewrite Hk; eauto|exact Hc]).
    rewrite Hk in Hk2. injection Hk2 as <- <-. exact Hv.
Qed.

(** X10: when the [Write] of the writer fails, the write-out of
    [Handler] returns an error that wraps that failure; its header loop
    has run before the write, so the headers of the writer hold the first
    values of the response all the same. *)
Theorem Handler_write_closed (w : ResponseWriter) (response : handlerResponse)
    (e : error) :
  map_Forall (fun _ vs => vs <> []) (Header response) ->
  w_fault w = Some e ->
  exists (err : error) (w' : ResponseWriter),
    Handler_write w response = Returned (Some err, w') /\
    errors_Unwrap err = Some e /\
    first_values_set (Header response) (w_header w) (w_header w').
Proof.
  intros Hne Hfault. unfold Handler_write.
  destruct (Handler_setHeaders_spec (rangeHeader (Header response)) (w_header w))
    as (h' & -> & Hh').
  { intros k vs Hin. apply elem_of_rangeHeader in Hin. exact (Hne k vs Hin). }
  unfold w_Write. cbn. rewrite Hfault.
  eexists. eexists. split; [reflexivity|]. split; [reflexivity|]. cbn.
  intros k'. destruct (Hh' k') as [[Hsame Hnone]|(k & v & vs & Hin & Hk & Hv)].
  - left. split; [exact Hsame|]. intros k [vs Hk].
    apply (Hnone k vs). apply elem_of_rangeHeader. exact Hk.
  - right. exists k, v, vs. split; [apply elem_of_rangeHeader; exact Hin|].
    split; [exact Hk|exact Hv].
Qed.

End CaptureInterface.

(** The handler that writes twice: the body is cut to three bytes. *)
Lemma httpExecutor_interface_only_witness :
  interface_only (handler_two_writes sample_request) = true /\
  Bytes (Response (httpExecutor (rt := sampleRuntime) sample_writer sample_request
                     handler_two_writes 7 100 "GET /a"))
  = take 3 (bytes "abcde").
Proof.
  split; [reflexivity|].
  apply (httpExecutor_interface_only (rt := sampleRuntime) sample_writer sample_request
           handler_two_writes 7 100 "GET /a").
  reflexivity.
Defined.

(** The handler that writes ["created"] once. *)
Lemma httpExecutor_single_write_witness :
  writes (handler_created sample_request) = [bytes "created"] /\
  Bytes (Response (httpExecutor (rt := sampleRuntime) sample_writer sample_request
                     handler_created 7 100 "GET /a"))
  = bytes "created".
Proof.
  split; [reflexivity|].
  apply (httpExecutor_single_write (rt := sampleRuntime) sample_writer sample_request
           handler_created 7 100 "GET /a" (bytes "created")); reflexivity.
Defined.

(** The handler that sets [Content-Type]. *)
Lemma httpExecutor_headers_witness :
  Header (Response (httpExecutor (rt := sampleRuntime) sample_writer sample_request
                      handler_created 7 100 "GET /a"))
  = {[ "Content-Type" := ["text/plain"] ]}.
Proof.
  rewrite (httpExecutor_headers (rt := sampleRuntime) sample_writer sample_request
             handler_created 7 100 "GET /a"); reflexivity.
Defined.

(** The handler that answers 201 and then 404. *)
Lemma statusCode_last_WriteHeader_witness :
  statusCode (ServeHTTP (rt := sampleRuntime) handler_created newResponseReadWriter
                sample_request) = 404.
Proof.
  apply (statusCode_last_WriteHeader (rt := sampleRuntime) handler_created sample_request
           [CallHeader (HSet "Content-Type" "text/plain"); CallWriteHeader 201;
            CallWrite (bytes "created")] [] 404); reflexivity.
Defined.

(** The response whose [Accept] has no value. *)
Lemma Handler_write_no_value_witness :
  Handler_write (rt := sampleRuntime) sample_writer sample_response_no_value = Panicked.
Proof.
  apply (Handler_write_no_value (rt := sampleRuntime) sample_writer
           sample_response_no_value "Accept").
  reflexivity.
Defined.

(** The stored entry, whose [Accept] has two values. *)
Lemma Handler_write_first_values_witness :
  exists w' : ResponseWriter,
    Handler_write (rt := sampleRuntime) sample_writer (Response sample_entry)
    = Returned (None, w') /\
    w_header w' !! "Accept" = Some ["text/html"].
Proof.
  destruct (Handler_write_first_values (rt := sampleRuntime) sample_writer
              (Response sample_entry)) as (w' & Ew & Hh).
  - intros k1 k2 _ _ Hc. exact Hc.
  - apply map_Forall_singleton. discriminate.
  - reflexivity.
  - exists w'. split; [exact Ew|].
    apply (Hh "Accept" "text/html" ["text/plain"]). reflexivity.
Defined.

(** The stored entry, sent to a closed connection. *)
Lemma Handler_write_closed_witness :
  exists (err : error) (w' : ResponseWriter),
    Handler_write (rt := sampleRuntime) sample_writer_closed (Response sample_entry)
    = Returned (Some err, w') /\
    errors_Unwrap err = Some (errors_New "broken pipe") /\
    first_values_set (rt := sampleRuntime) (Header (Response sample_entry))
      (w_header sample_writer_closed) (w_header w').
Proof.
  apply (Handler_write_closed (rt := sampleRuntime) sample_writer_closed
           (Response sample_entry) (errors_New "broken pipe")).
  - apply map_Forall_singleton. discriminate.
  - reflexivity.
Defined.

(** * Properties of package log *)

Lemma levelOrder_lookup (lvl : log.Level) (n : Z) :
  log.levelOrder !! lvl = Some n ->
  (lvl, n) ∈ [(log.DebugLevel, 0); (log.InfoLevel, 1); (log.WarnLevel, 2);
              (log.ErrorLevel, 3); (log.FatalLevel, 4); (log.PanicLevel, 5);
              (log.NoLevel, 6)].
Proof. unfold log.levelOrder. apply elem_of_list_to_map_2. Qed.

Lemma LevelOrder_nonneg (lvl : log.Level) : 0 <= log.LevelOrder lvl.
Proof.
  unfold log.LevelOrder. destruct (log.levelOrder !! lvl) as [n|] eqn:E; cbn; [|lia].
  apply levelOrder_lookup in E.
  repeat (apply elem_of_cons in E as [[= _ ->]|E]; [lia|]).
  inversion E.
Qed.

(** X11: [LevelOrder] ranks the seven levels of the package in the order
    debug, info, warn, error, fatal, panic, no level, and gives any other
    level the rank 0 of debug. *)
Theorem LevelOrder_ranks :
  log.LevelOrder log.DebugLevel < log.LevelOrder log.InfoLevel /\
  log.LevelOrder log.InfoLevel < log.LevelOrder log.WarnLevel /\
  log.LevelOrder log.WarnLevel < log.LevelOrder log.ErrorLevel /\
  log.LevelOrder log.ErrorLevel < log.LevelOrder log.FatalLevel /\
  log.LevelOrder log.FatalLevel < log.LevelOrder log.PanicLevel /\
  log.LevelOrder log.PanicLevel < log.LevelOrder log.NoLevel /\
  forall lvl : log.Level,
    lvl ∉ [log.DebugLevel; log.InfoLevel; log.WarnLevel; log.ErrorLevel;
           log.FatalLevel; log.PanicLevel; log.NoLevel] ->
    log.LevelOrder lvl = log.LevelOrder log.DebugLevel.
Proof.
  repeat (split; [vm_compute; reflexivity|]).
  intros lvl Hnot. unfold log.LevelOrder at 1.
  destruct (log.levelOrder !! lvl) as [n|] eqn:E; [|reflexivity].
  exfalso. apply Hnot. apply levelOrder_lookup in E.
  apply (list_elem_of_fmap_2 fst) in E. exact E.
Qed.

(** X12: while the logger is the one the package starts with, every
    level is enabled, a level the package does not know too. *)
Theorem Enabled_default_logger (l : log.Level) (s : log.state) :
  log.logger s = log.fmtLogger -> log.Enabled l s = true.
Proof.
  intros Hl. unfold log.Enabled. rewrite Hl. cbn.
  apply Z.leb_le. change (log.LevelOrder log.fmtLogger_Level) with 0.
  apply LevelOrder_nonneg.
Qed.

(** The package as loaded, asked for a level it does not know. *)
Lemma Enabled_default_logger_witness : log.Enabled "trace" log.init = true.
Proof. apply (Enabled_default_logger "trace" log.init). reflexivity. Defined.

(** X13: the first [Setup] with a logger installs it and no later one
    replaces it, though it returns no error; a [Setup] with [nil] returns
    an error and does not use up that first time. *)
Theorem Setup_first_wins (l1 l2 : log.Logger) (s : log.state) :
  log.once s = false ->
  log.logger (log.Setup (Some l1) s).1 = l1 /\
  log.Setup (Some l2) (log.Setup (Some l1) s).1 = ((log.Setup (Some l1) s).1, None) /\
  log.Setup None s = (s, Some (errors_New "logger is nil")) /\
  log.logger (log.Setup (Some l2) (log.Setup None s).1).1 = l2.
Proof.
  intros Hs. unfold log.Setup. rewrite Hs. cbn. rewrite Hs. auto.
Qed.

(** Two loggers of the application, set up one after the other. *)
Lemma Setup_first_wins_witness :
  log.logger
    (log.Setup (Some (log.appLogger "std" log.InfoLevel))
       (log.Setup (Some (log.appLogger "zerolog" log.WarnLevel)) log.init).1).1
  = log.appLogger "zerolog" log.WarnLevel.
Proof.
  destruct (Setup_first_wins (log.appLogger "zerolog" log.WarnLevel)
              (log.appLogger "std" log.InfoLevel) log.init) as (H1 & H2 & _);
    [reflexivity|].
  rewrite H2. exact H1.
Defined.

(** X14: [FromContext] gives back the logger [WithContext] was given;
    given [nil], [WithContext] hides any logger the context held and
    [FromContext] falls back on the logger of the package, as it does for
    a context that holds none. *)
Theorem FromContext_WithContext (ctx : log.Context) (l : log.Logger) (s : log.state) :
  log.FromContext (log.WithContext ctx (Some l)) s = l /\
  log.FromContext (log.WithContext ctx None) s = log.logger s /\
  (log.Value_ctxKey ctx = None -> log.FromContext ctx s = log.logger s).
Proof.
  split; [reflexivity|]. split; [reflexivity|].
  intros Hv. unfold log.FromContext. rewrite Hv. reflexivity.
Qed.

(** X15: with the logger the package starts with, each of the twelve
    logging functions adds one to the counter of its level and to no
    other, prints once, and leaves the logger in place; the two panic
    functions then panic with their arguments, the two fatal ones end the
    process with code 1, and the others return. *)
Theorem call_default_logger (m : log.method) (msg : option string) (args : list log.arg)
    (s : log.state) :
  log.logger s = log.fmtLogger ->
  log.LogCounter (log.call m msg args s).1 !! log.level_of m
  = Some (S (default 0%nat (log.LogCounter s !! log.level_of m))) /\
  (forall lvl : log.Level,
      lvl <> log.level_of m ->
      log.LogCounter (log.call m msg args s).1 !! lvl = log.LogCounter s !! lvl) /\
  length (log.stdout (log.call m msg args s).1) = S (length (log.stdout s)) /\
  log.logger (log.call m msg args s).1 = log.fmtLogger /\
  (log.call m msg args s).2
  = match m with
    | log.mPanic | log.mPanicf => log.Panics args
    | log.mFatal | log.mFatalf => log.Exits 1
    | _ => log.Continues
    end.
Proof.
  intros Hl. unfold log.call. rewrite Hl.
  destruct m; cbn; rewrite lookup_insert_eq, length_app; cbn;
    (split; [reflexivity|]);
    (split; [intros lvl Hne; apply lookup_insert_ne; congruence|]);
    (split; [lia|]); auto.
Qed.

(** [Warnf] on the package as loaded. *)
Lemma call_default_logger_witness :
  log.LogCounter (log.Warnf "route cache disabled" [] log.init).1 !! log.WarnLevel
  = Some 1%nat.
Proof.
  apply (call_default_logger log.mWarnf (Some "route cache disabled") [] log.init).
  reflexivity.
Defined.

(** * Properties of the MQTT publisher *)

(** X16: [DefaultConfig] succeeds exactly when there is a broker URL and
    the client id is not empty, and the configuration then carries both
    as given; without a broker URL the error says so, whatever the client
    id, and the configuration is the zero one. *)
Theorem DefaultConfig_checks (brokerURLs : list string) (clientID : string) :
  ((mqtt.DefaultConfig brokerURLs clientID).2 = None
   <-> brokerURLs <> [] /\ clientID <> "") /\
  ((mqtt.DefaultConfig brokerURLs clientID).2 = None ->
   mqtt.BrokerUrls (mqtt.DefaultConfig brokerURLs clientID).1 = brokerURLs /\
   mqtt.ClientID (mqtt.DefaultConfig brokerURLs clientID).1 = clientID) /\
  (brokerURLs = [] ->
   mqtt.DefaultConfig brokerURLs clientID
   = (mqtt.ClientConfig_zero, Some (errors_New "no broker URLs provided"))) /\
  (brokerURLs <> [] -> clientID = "" ->
   mqtt.DefaultConfig brokerURLs clientID
   = (mqtt.ClientConfig_zero, Some (errors_New "no client id provided"))).
Proof.
  unfold mqtt.DefaultConfig.
  destruct brokerURLs as [|u us]; [|destruct (decide (clientID = "")) as [->|Hc]]; cbn.
  - repeat split; try discriminate; try congruence. intros [H _]. congruence.
  - repeat split; try discriminate; try congruence. intros [_ H]. congruence.
  - repeat split; try discriminate; try congruence.
Qed.

(** X17: every callback of a configuration [DefaultConfig] returns is
    set, and with the logger the package [log] starts with each of them
    writes one line and returns: at info level when the connection is up,
    at error level on a connect or client error, at warn level on a server
    disconnect, at debug level on a publish. *)
Theorem DefaultConfig_callbacks (brokerURLs : list string) (clientID : string) :
  brokerURLs <> [] ->
  clientID <> "" ->
  exists up connectError serverDisconnect clientError hook,
    mqtt.OnConnectionUp (mqtt.DefaultConfig brokerURLs clientID).1 = Some up /\
    mqtt.OnConnectError (mqtt.DefaultConfig brokerURLs clientID).1 = Some connectError /\
    mqtt.OnServerDisconnect (mqtt.DefaultConfig brokerURLs clientID).1
    = Some serverDisconnect /\
    mqtt.OnClientError (mqtt.DefaultConfig brokerURLs clientID).1 = Some clientError /\
    mqtt.PublishHook (mqtt.DefaultConfig brokerURLs clientID).1 = Some hook /\
    forall (s : log.state) (code : Z) (err : error) (topic : string),
      log.logger s = log.fmtLogger ->
      logs_one_line log.InfoLevel s (up code s) /\
      logs_one_line log.ErrorLevel s (connectError err s) /\
      logs_one_line log.WarnLevel s (serverDisconnect code s) /\
      logs_one_line log.ErrorLevel s (clientError err s) /\
      logs_one_line log.DebugLevel s (hook topic s).
Proof.
  intros Hb Hc. unfold mqtt.DefaultConfig.
  destruct brokerURLs as [|u us]; [congruence|].
  destruct (decide (clientID = "")) as [E|_]; [congruence|]. cbn.
  do 5 eexists. repeat (split; [reflexivity|]).
  intros s code err topic Hl.
  unfold logs_one_line, log.Infof, log.Errorf, log.Warnf, log.Debugf, log.call.
  rewrite Hl. cbn. rewrite !lookup_insert_eq, !length_app. cbn.
  repeat split; lia.
Qed.

(** The configuration for one broker and a client id. *)
Lemma DefaultConfig_callbacks_witness :
  exists hook,
    mqtt.PublishHook (mqtt.DefaultConfig ["tcp://localhost:1883"] "test-client-id").1
    = Some hook /\
    logs_one_line log.DebugLevel log.init (hook "testTopic" log.init).
Proof.
  destruct (DefaultConfig_callbacks ["tcp://localhost:1883"] "test-client-id")
    as (up & ce & sd & cle & hook & _ & _ & _ & _ & Hh & Hlog);
    [discriminate | discriminate |].
  exists hook. split; [exact Hh|].
  apply (Hlog log.init 0 io_EOF "testTopic"). reflexivity.
Defined.

(** X18: [ensurePublishingProperties] leaves a message whose properties
    and user properties are both set, with the user properties, topic and
    payload it had; a second call changes nothing. *)
Theorem ensurePublishingProperties_ensures (pub : mqtt.paho_Publish) :
  (exists props u,
      mqtt.Properties (mqtt.ensurePublishingProperties pub) = Some props /\
      mqtt.User props = Some u) /\
  mqtt.user_properties (mqtt.ensurePublishingProperties pub) = mqtt.user_properties pub /\
  mqtt.Topic (mqtt.ensurePublishingProperties pub) = mqtt.Topic pub /\
  mqtt.Payload (mqtt.ensurePublishingProperties pub) = mqtt.Payload pub /\
  mqtt.ensurePublishingProperties (mqtt.ensurePublishingProperties pub)
  = mqtt.ensurePublishingProperties pub.
Proof.
  destruct pub as [q r t [props|] pid pl]; unfold mqtt.ensurePublishingProperties; cbn.
  - destruct props as [cd ct rt pf me si ta [u|]]; cbn; unfold mqtt.user_properties; cbn;
      (split; [eauto|]); auto.
  - unfold mqtt.user_properties. cbn. split; [eauto|]. auto.
Qed.

Lemma foldl_mqttHeadersCarrier_Set (kvs : list (string * string)) (l : list (string * string)) :
  foldl (fun c kv => mqtt.mqttHeadersCarrier_Set c kv.1 kv.2) (Some l) kvs
  = Some (l ++ kvs).
Proof.
  revert l. induction kvs as [|[k v] kvs IH]; intros l.
  - cbn. rewrite app_nil_r. reflexivity.
  - cbn [foldl].
    change (mqtt.mqttHeadersCarrier_Set (Some l) (k, v).1 (k, v).2)
      with (Some (l ++ [(k, v)])).
    rewrite IH, <- app_assoc. reflexivity.
Qed.

Lemma injectObservabilityHeaders_spec (env : mqtt.Env) (pub : mqtt.paho_Publish) :
  exists pub' : mqtt.paho_Publish,
    mqtt.injectObservabilityHeaders env pub
    = (pub',
       Some (mqtt.user_properties pub
             ++ [(mqtt.HeaderID env, mqtt.correlationID env)]
             ++ mqtt.injected (mqtt.span env)),
       mqtt.inject_error (mqtt.span env)) /\
    mqtt.user_properties pub'
    = mqtt.user_properties pub ++ [(mqtt.HeaderID env, mqtt.correlationID env)] /\
    mqtt.Topic pub' = mqtt.Topic pub /\
    mqtt.Payload pub' = mqtt.Payload pub /\
    mqtt.QoS pub' = mqtt.QoS pub.
Proof.
  destruct pub as [q r t [props|] pid pl];
    [destruct props as [cd ct rt pf me si ta [u|]]|];
    unfold mqtt.injectObservabilityHeaders, mqtt.ensurePublishingProperties,
      mqtt.user_properties, mqtt.UserProperties_Add;
    cbn -[mqtt.mqttHeadersCarrier_Set];
    rewrite foldl_mqttHeadersCarrier_Set, <- ?app_assoc;
    eexists; (split; [reflexivity|]); cbn; auto.
Qed.

(** X19: [injectObservabilityHeaders] appends the correlation header to
    the user properties of the message and nothing else: the headers the
    tracer sets go to the carrier, a slice of its own, and not to the
    message; the error is the tracer's. *)
Theorem injectObservabilityHeaders_user_properties (env : mqtt.Env)
    (pub : mqtt.paho_Publish) :
  mqtt.user_properties (mqtt.injectObservabilityHeaders env pub).1.1
  = mqtt.user_properties pub ++ [(mqtt.HeaderID env, mqtt.correlationID env)] /\
  (mqtt.injectObservabilityHeaders env pub).1.2
  = Some (mqtt.user_properties pub
          ++ [(mqtt.HeaderID env, mqtt.correlationID env)]
          ++ mqtt.injected (mqtt.span env)) /\
  (mqtt.injectObservabilityHeaders env pub).2 = mqtt.inject_error (mqtt.span env) /\
  mqtt.Topic (mqtt.injectObservabilityHeaders env pub).1.1 = mqtt.Topic pub /\
  mqtt.Payload (mqtt.injectObservabilityHeaders env pub).1.1 = mqtt.Payload pub.
Proof.
  destruct (injectObservabilityHeaders_spec env pub) as (pub' & -> & Hu & Ht & Hp & _).
  cbn. auto.
Qed.

(** X20: on each of its four paths [Publish] completes the span once
    and observes the duration once, under the topic of the message and
    with the success label ["true"] exactly when it returns no error. *)
Theorem Publish_observes_once (p : mqtt.Publisher) (env : mqtt.Env)
    (pub : mqtt.paho_Publish) :
  List.filter is_observe (mqtt.Publish p env pub).1.1.1
  = [mqtt.EvObserve (mqtt.Topic pub)
       (mqtt.FormatBool (bool_decide ((mqtt.Publish p env pub).2 = None)))
       (mqtt.elapsed env)] /\
  exists cause : option error,
    List.filter is_span_complete (mqtt.Publish p env pub).1.1.1
    = [mqtt.EvSpanComplete cause] /\
    (cause = None <-> (mqtt.Publish p env pub).2 = None).
Proof.
  unfold mqtt.Publish.
  destruct (injectObservabilityHeaders_spec env pub) as (pub' & -> & _ & Ht & _).
  destruct (mqtt.AwaitConnection (mqtt.cm p)) as [e|]; cbn.
  { split; [reflexivity|]. eexists. split; [reflexivity|]. split; discriminate. }
  destruct (mqtt.inject_error (mqtt.span env)) as [e|]; cbn.
  { rewrite Ht. split; [reflexivity|]. eexists. split; [reflexivity|].
    split; discriminate. }
  destruct (mqtt.cm_Publish (mqtt.cm p) pub') as [rsp [e|]]; cbn; rewrite Ht.
  - split; [reflexivity|]. eexists. split; [reflexivity|]. split; discriminate.
  - split; [reflexivity|]. eexists. split; [reflexivity|]. split; reflexivity.
Qed.

(** X21: [Publish] hands a message to the connection manager exactly
    when the connection is up and the tracer injected without error, and
    then once: the message with the correlation header appended to its
    user properties, its topic and payload as given. *)
Theorem Publish_publishes (p : mqtt.Publisher) (env : mqtt.Env) (pub : mqtt.paho_Publish) :
  (published (mqtt.Publish p env pub).1.1.1 <> []
   <-> mqtt.AwaitConnection (mqtt.cm p) = None /\
       mqtt.inject_error (mqtt.span env) = None) /\
  forall m : mqtt.paho_Publish,
    m ∈ published (mqtt.Publish p env pub).1.1.1 ->
    published (mqtt.Publish p env pub).1.1.1 = [m] /\
    mqtt.user_properties m
    = mqtt.user_properties pub ++ [(mqtt.HeaderID env, mqtt.correlationID env)] /\
    mqtt.Topic m = mqtt.Topic pub /\
    mqtt.Payload m = mqtt.Payload pub.
Proof.
  unfold mqtt.Publish.
  destruct (injectObservabilityHeaders_spec env pub) as (pub' & -> & Hu & Ht & Hp & _).
  destruct (mqtt.AwaitConnection (mqtt.cm p)) as [e|]; cbn.
  { split; [split; [congruence|intros [? _]; discriminate]|].
    intros m Hm. inversion Hm. }
  destruct (mqtt.inject_error (mqtt.span env)) as [e|]; cbn.
  { split; [split; [congruence|intros [_ ?]; discriminate]|].
    intros m Hm. inversion Hm. }
  destruct (mqtt.cm_Publish (mqtt.cm p) pub') as [rsp [e|]]; cbn;
    (split; [split; [auto|discriminate]|]);
    intros m Hm; apply list_elem_of_singleton in Hm as ->; auto.
Qed.

(** X22: [Publish] returns no error exactly when the connection is up,
    the tracer injects and the connection manager publishes without error,
    and the response is then the connection manager's; otherwise it
    returns no response and an error that wraps the first of these three
    failures. *)
Theorem Publish_result (p : mqtt.Publisher) (env : mqtt.Env) (pub : mqtt.paho_Publish) :
  match (mqtt.Publish p env pub).2 with
  | None =>
      mqtt.AwaitConnection (mqtt.cm p) = None /\
      mqtt.inject_error (mqtt.span env) = None /\
      mqtt.cm_Publish (mqtt.cm p) (mqtt.injectObservabilityHeaders env pub).1.1
      = ((mqtt.Publish p env pub).1.2, None)
  | Some err =>
      (mqtt.Publish p env pub).1.2 = None /\
      exists cause : error,
        errors_Unwrap err = Some cause /\
        (mqtt.AwaitConnection (mqtt.cm p) = Some cause \/
         (mqtt.AwaitConnection (mqtt.cm p) = None /\
          mqtt.inject_error (mqtt.span env) = Some cause) \/
         (mqtt.AwaitConnection (mqtt.cm p) = None /\
          mqtt.inject_error (mqtt.span env) = None /\
          (mqtt.cm_Publish (mqtt.cm p) (mqtt.injectObservabilityHeaders env pub).1.1).2
          = Some cause))
  end.
Proof.
  unfold mqtt.Publish.
  destruct (injectObservabilityHeaders_spec env pub) as (pub' & -> & _).
  destruct (mqtt.AwaitConnection (mqtt.cm p)) as [e|]; cbn.
  { split; [reflexivity|]. exists e. auto. }
  destruct (mqtt.inject_error (mqtt.span env)) as [e|]; cbn.
  { split; [reflexivity|]. exists e. auto. }
  destruct (mqtt.cm_Publish (mqtt.cm p) pub') as [rsp [e|]]; cbn.
  - split; [reflexivity|]. exists e. auto 6.
  - auto.
Qed.

Lemma Publish_appends_correlation_aux (p : mqtt.Publisher) (env : mqtt.Env)
    (pub : mqtt.paho_Publish) :
  mqtt.AwaitConnection (mqtt.cm p) = None ->
  mqtt.user_properties (mqtt.Publish p env pub).1.1.2
  = mqtt.user_properties pub ++ [(mqtt.HeaderID env, mqtt.correlationID env)].
Proof.
  intros Hup. unfold mqtt.Publish. rewrite Hup.
  destruct (injectObservabilityHeaders_spec env pub) as (pub' & -> & Hu & _).
  destruct (mqtt.inject_error (mqtt.span env)) as [e|]; cbn; [exact Hu|].
  destruct (mqtt.cm_Publish (mqtt.cm p) pub') as [rsp [e|]]; cbn; exact Hu.
Qed.

(** X23: [Publish] changes the message of its caller: unless the
    connection is down, in which case the message stays as it is, one
    correlation header is appended to its user properties, also when the
    injection or the publishing fails. *)
Theorem Publish_appends_correlation (p : mqtt.Publisher) (env : mqtt.Env)
    (pub : mqtt.paho_Publish) :
  match mqtt.AwaitConnection (mqtt.cm p) with
  | Some _ => (mqtt.Publish p env pub).1.1.2 = pub
  | None =>
      mqtt.user_properties (mqtt.Publish p env pub).1.1.2
      = mqtt.user_properties pub ++ [(mqtt.HeaderID env, mqtt.correlationID env)]
  end.
Proof.
  unfold mqtt.Publish.
  destruct (injectObservabilityHeaders_spec env pub) as (pub' & -> & Hu & _).
  destruct (mqtt.AwaitConnection (mqtt.cm p)) as [e|]; cbn; [reflexivity|].
  destruct (mqtt.inject_error (mqtt.span env)) as [e|]; cbn; [exact Hu|].
  destruct (mqtt.cm_Publish (mqtt.cm p) pub') as [rsp [e|]]; cbn; exact Hu.
Qed.

(** X24: a message published twice over connections that are up carries
    two correlation headers, the one of the first call before the one of
    the second. *)
Theorem Publish_twice (p1 p2 : mqtt.Publisher) (env1 env2 : mqtt.Env)
    (pub : mqtt.paho_Publish) :
  mqtt.AwaitConnection (mqtt.cm p1) = None ->
  mqtt.AwaitConnection (mqtt.cm p2) = None ->
  mqtt.user_properties
    (mqtt.Publish p2 env2 (mqtt.Publish p1 env1 pub).1.1.2).1.1.2
  = mqtt.user_properties pub
    ++ [(mqtt.HeaderID env1, mqtt.correlationID env1);
        (mqtt.HeaderID env2, mqtt.correlationID env2)].
Proof.
  intros H1 H2.
  pose proof (Publish_appends_correlation_aux p2 env2 (mqtt.Publish p1 env1 pub).1.1.2 H2)
    as E2.
  pose proof (Publish_appends_correlation_aux p1 env1 pub H1) as E1.
  rewrite E2, E1, <- app_assoc. reflexivity.
Qed.

(** The sample message, published twice by the sample publisher. *)
Lemma Publish_twice_witness :
  mqtt.user_properties
    (mqtt.Publish sample_publisher sample_env
       (mqtt.Publish sample_publisher sample_env sample_message).1.1.2).1.1.2
  = [("from", "test"); ("X-Correlation-Id", "id-1"); ("X-Correlation-Id", "id-1")].
Proof.
  apply (Publish_twice sample_publisher sample_publisher sample_env sample_env
           sample_message); reflexivity.
Defined.
